(** * primetrade: signed futures-exchange client and order manager

    A shallow embedding of [bot/validators.py], [bot/client.py] and
    [bot/orders.py], and the properties of the specification checked
    against it.

    Conventions of the embedding.
    - A Python [str] is a [string] holding its UTF-8 bytes; [upper] and
      [strip] act on the ASCII range.
    - A Python value is a [pyval]; a [dict] with string keys is an
      association list in insertion order.
    - A [float] is carried as the decimal it denotes: binary64 rounding is
      not modelled.
    - Exceptions are values of [exn]; stateful code runs in the monad [M]
      over a [world] that holds the clock, the scripted network and the
      trace of HTTP requests.
    - Calls to the logger write to an external sink and never change
      control flow or results; they are left out. *)

From Stdlib Require Import ZArith NArith List String Ascii Bool Lia.
From Stdlib Require Import DecimalString.
From Stdlib Require DecimalPos.
Import ListNotations.

Local Open Scope string_scope.
Local Open Scope Z_scope.

(* ====================================================================== *)
(** ** Text *)
(* ====================================================================== *)

Module Text.

Definition chars (s : string) : list ascii := list_ascii_of_string s.
Definition text (l : list ascii) : string := string_of_list_ascii l.

Definition code (c : ascii) : N := N_of_ascii c.

Definition between (lo hi : N) (c : ascii) : bool :=
  (N.leb lo (code c) && N.leb (code c) hi)%bool.

Definition is_digit (c : ascii) : bool := between 48 57 c.
Definition is_lower (c : ascii) : bool := between 97 122 c.
Definition is_upper (c : ascii) : bool := between 65 90 c.

(** [str.isspace] on the ASCII range: TAB..CR, FS..US and SPACE. *)
Definition is_space (c : ascii) : bool :=
  (between 9 13 c || between 28 32 c)%bool.

Definition upper_char (c : ascii) : ascii :=
  if is_lower c then ascii_of_N (code c - 32) else c.

Definition lower_char (c : ascii) : ascii :=
  if is_upper c then ascii_of_N (code c + 32) else c.

(** [s.upper()] *)
Definition upper (s : string) : string := text (map upper_char (chars s)).

Fixpoint drop_while (p : ascii -> bool) (l : list ascii) : list ascii :=
  match l with
  | c :: r => if p c then drop_while p r else l
  | [] => []
  end.

(** [s.strip()] *)
Definition strip_chars (l : list ascii) : list ascii :=
  rev (drop_while is_space (rev (drop_while is_space l))).

Definition strip (s : string) : string := text (strip_chars (chars s)).

Fixpoint starts_with (p l : list ascii) : bool :=
  match p, l with
  | [], _ => true
  | a :: p', b :: l' => (Ascii.eqb a b && starts_with p' l')%bool
  | _ :: _, [] => false
  end.

(** [s.endswith(suffix)] *)
Definition endswith (s suffix : string) : bool :=
  starts_with (rev (chars suffix)) (rev (chars s)).

Definition startswith (s p : string) : bool :=
  starts_with (chars p) (chars s).

(** [sep.join(parts)] *)
Fixpoint join (sep : string) (parts : list string) : string :=
  match parts with
  | [] => ""
  | [p] => p
  | p :: rest => p ++ sep ++ join sep rest
  end.

(** ["=" * n] and friends *)
Fixpoint repeat_char (c : ascii) (n : nat) : string :=
  match n with
  | O => ""
  | S k => String c (repeat_char c k)
  end.

(** [str(n)] for an [int]; the limit CPython puts on the number of digits
    (4300 by default) is not modelled. *)
Definition of_Z (z : Z) : string := NilZero.string_of_int (Z.to_int z).
Definition of_N (n : N) : string := NilZero.string_of_uint (N.to_uint n).

Definition hex_digit (upper_case : bool) (n : N) : ascii :=
  if N.ltb n 10 then ascii_of_N (48 + n)
  else ascii_of_N ((if upper_case then 55 else 87) + n).

Definition is_lower_hex (c : ascii) : bool :=
  (is_digit c || between 97 102 c)%bool.

End Text.

(* ====================================================================== *)
(** ** [decimal.Decimal]: the values and the constructor from a string *)
(* ====================================================================== *)

Module Dec.
Import Text.

(** A [Decimal] is a signed coefficient with a power of ten, an infinity
    or a (quiet or signaling) NaN with a payload. *)
Inductive decimal : Type :=
| Finite (negative : bool) (coefficient : N) (exponent : Z)
| Infinity (negative : bool)
| NaN (negative signaling : bool) (payload : N).

Definition digit_val (c : ascii) : N := (code c - 48)%N.

Definition digits_val (l : list ascii) : N :=
  fold_left (fun acc c => (10 * acc + digit_val c)%N) l 0%N.

Fixpoint span_digits (l : list ascii) : list ascii * list ascii :=
  match l with
  | c :: r =>
      if is_digit c
      then let '(d, rest) := span_digits r in (c :: d, rest)
      else ([], l)
  | [] => ([], [])
  end.

Definition not_underscore (c : ascii) : bool :=
  negb (Ascii.eqb c "_"%char).

(** The sign prefix: [[-+]?]. *)
Definition split_sign (l : list ascii) : bool * list ascii :=
  match l with
  | c :: r =>
      if Ascii.eqb c "-"%char then (true, r)
      else if Ascii.eqb c "+"%char then (false, r)
      else (false, l)
  | [] => (false, [])
  end.

(** The exponent part [(E[-+]?\d+)?] followed by the end of the text. *)
Definition parse_exponent (l : list ascii) : option Z :=
  match l with
  | [] => Some 0
  | c :: r =>
      if Ascii.eqb c "e"%char then
        let '(neg, r1) := split_sign r in
        match span_digits r1 with
        | ((_ :: _) as ds, []) =>
            Some (if neg then - Z.of_N (digits_val ds)
                  else Z.of_N (digits_val ds))
        | _ => None
        end
      else None
  end.

(** A number: digits with an optional fraction and exponent, at least one
    digit in the integer or the fractional part. *)
Definition parse_number (neg : bool) (l : list ascii) : option decimal :=
  let '(ip, r1) := span_digits l in
  let '(fp, r2) :=
    match r1 with
    | c :: r =>
        if Ascii.eqb c "."%char then span_digits r else ([], r1)
    | [] => ([], [])
    end in
  match (ip ++ fp)%list with
  | [] => None
  | ds =>
      match parse_exponent r2 with
      | Some e => Some (Finite neg (digits_val ds) (e - Z.of_nat (List.length fp)))
      | None => None
      end
  end.

(** [NaN] with optional diagnostic digits, optionally signaling. *)
Definition parse_nan (neg : bool) (l : list ascii) : option decimal :=
  let '(sig, r) :=
    match l with
    | c :: r' => if Ascii.eqb c "s"%char then (true, r') else (false, l)
    | [] => (false, [])
    end in
  if starts_with (chars "nan") r then
    match span_digits (skipn 3 r) with
    | (ds, []) => Some (NaN neg sig (digits_val ds))
    | _ => None
    end
  else None.

Definition parse_special (neg : bool) (l : list ascii) : option decimal :=
  if (list_eq_dec ascii_dec l (chars "inf")) then Some (Infinity neg)
  else if (list_eq_dec ascii_dec l (chars "infinity")) then Some (Infinity neg)
  else parse_nan neg l.

(** [Decimal(s)] for a string [s]: surrounding whitespace is dropped,
    underscores are ignored, letters match in either case.  [None] is the
    [InvalidOperation] the constructor raises on a malformed string.  The
    library's bound of 10^18 on the size of exponents and its reading of
    digits outside ASCII are not modelled. *)
Definition of_string (s : string) : option decimal :=
  let l := map lower_char (filter not_underscore (strip_chars (chars s))) in
  let '(neg, body) := split_sign l in
  match body with
  | c :: r =>
      if (is_digit c || Ascii.eqb c "."%char)%bool
      then parse_number neg body
      else parse_special neg body
  | [] => None
  end.

(** [d <= 0]: an ordering comparison with a NaN signals
    [InvalidOperation] ([None]). *)
Definition le_zero (d : decimal) : option bool :=
  match d with
  | Finite neg c _ => Some (neg || N.eqb c 0)%bool
  | Infinity neg => Some neg
  | NaN _ _ _ => None
  end.

Definition is_zero (d : decimal) : bool :=
  match d with
  | Finite _ c _ => N.eqb c 0
  | _ => false
  end.

End Dec.

(* ====================================================================== *)
(** ** Python values *)
(* ====================================================================== *)

Local Set Warnings "-register-all".

(** The values that reach the code: [None], [bool], [int], [float], [str],
    and the [list]s and string-keyed [dict]s of a decoded JSON document. *)
Inductive pyval : Type :=
| VNone
| VBool (b : bool)
| VInt (n : Z)
| VFloat (d : Dec.decimal)
| VStr (s : string)
| VList (items : list pyval)
| VDict (entries : list (string * pyval)).

(** A [dict] with string keys, in insertion order. *)
Definition dict : Type := list (string * pyval).

Module Py.
Import Text.

(** Truth value testing: [if v:], [not v], [a or b]. *)
Definition truthy (v : pyval) : bool :=
  match v with
  | VNone => false
  | VBool b => b
  | VInt n => negb (Z.eqb n 0)
  | VFloat d => negb (Dec.is_zero d)
  | VStr s => negb (String.eqb s "")
  | VList l => match l with [] => false | _ => true end
  | VDict l => match l with [] => false | _ => true end
  end.

(** [a or b] *)
Definition por (a b : pyval) : pyval := if truthy a then a else b.

Definition is_none (v : pyval) : bool :=
  match v with VNone => true | _ => false end.

(** [v == s] for a string literal [s]: only an equal [str] is equal. *)
Definition eq_str (v : pyval) (s : string) : bool :=
  match v with VStr t => String.eqb t s | _ => false end.

(** *** [repr] of a float *)

Fixpoint drop_zeros (l : list ascii) : list ascii :=
  match l with
  | c :: r => if Ascii.eqb c "0"%char then drop_zeros r else l
  | [] => []
  end.

Definition zeros (n : nat) : list ascii := repeat "0"%char n.

(** An exponent is written with a sign and at least two digits. *)
Definition exponent_text (x : Z) : list ascii :=
  let ds := chars (of_N (Z.to_N (Z.abs x))) in
  ((if Z.ltb x 0 then "-"%char else "+"%char)
     :: (if Nat.ltb (List.length ds) 2 then "0"%char :: ds else ds))%list.

(** [repr(x)] of a finite non-zero float with significant digits [ds] and
    the decimal point after [decpt] of them: positional notation when
    [-4 < decpt <= 16], scientific notation otherwise. *)
Definition float_digits_text (ds : list ascii) (decpt : Z) : list ascii :=
  let n := Z.of_nat (List.length ds) in
  if (Z.ltb (-4) decpt && Z.leb decpt 16)%bool then
    if Z.leb decpt 0 then
      (chars "0." ++ zeros (Z.to_nat (- decpt)) ++ ds)%list
    else if Z.leb n decpt then
      (ds ++ zeros (Z.to_nat (decpt - n)) ++ chars ".0")%list
    else
      (firstn (Z.to_nat decpt) ds ++ "."%char :: skipn (Z.to_nat decpt) ds)%list
  else
    match ds with
    | [] => []
    | [d] => (d :: "e"%char :: exponent_text (decpt - 1))%list
    | d :: r => (d :: "."%char :: r ++ "e"%char :: exponent_text (decpt - 1))%list
    end.

Definition float_repr (d : Dec.decimal) : string :=
  match d with
  | Dec.NaN _ _ _ => "nan"
  | Dec.Infinity neg => if neg then "-inf" else "inf"
  | Dec.Finite neg c e =>
      let sign := if neg then "-" else "" in
      if N.eqb c 0 then sign ++ "0.0"
      else
        let all := chars (of_N c) in
        let ds := rev (drop_zeros (rev all)) in
        let decpt := Z.of_nat (List.length all) + e in
        sign ++ text (float_digits_text ds decpt)
  end.

(** *** [repr] of a string *)

Definition has_char (c : ascii) (s : string) : bool :=
  existsb (Ascii.eqb c) (chars s).

Definition squote : ascii := "'"%char.
Definition dquote : ascii := ascii_of_N 34.
Definition backslash : ascii := "\"%char.

Definition escape_char (quote c : ascii) : list ascii :=
  if (Ascii.eqb c quote || Ascii.eqb c backslash)%bool then [backslash; c]
  else if N.eqb (code c) 9 then [backslash; "t"%char]
  else if N.eqb (code c) 10 then [backslash; "n"%char]
  else if N.eqb (code c) 13 then [backslash; "r"%char]
  else if (N.ltb (code c) 32 || N.eqb (code c) 127)%bool then
    [backslash; "x"%char;
     hex_digit false (code c / 16); hex_digit false (code c mod 16)]
  else [c].

Definition str_repr (s : string) : string :=
  let quote :=
    if (has_char squote s && negb (has_char dquote s))%bool
    then dquote else squote in
  text (quote :: flat_map (escape_char quote) (chars s) ++ [quote])%list.

(** *** [repr] and [str] *)

Fixpoint repr (v : pyval) : string :=
  match v with
  | VNone => "None"
  | VBool b => if b then "True" else "False"
  | VInt n => of_Z n
  | VFloat d => float_repr d
  | VStr s => str_repr s
  | VList l => "[" ++ join ", " (map repr l) ++ "]"
  | VDict l =>
      "{" ++ join ", "
               ((fix entries (l : list (string * pyval)) : list string :=
                   match l with
                   | [] => []
                   | (k, x) :: r => (str_repr k ++ ": " ++ repr x) :: entries r
                   end) l)
          ++ "}"
  end.

(** [str(v)], also what an f-string field [{v}] renders. *)
Definition str (v : pyval) : string :=
  match v with
  | VStr s => s
  | _ => repr v
  end.

(** *** [dict] operations *)

(** [d.get(k)] as an option; [d.get(k, default)] is [get_or]. *)
Fixpoint lookup (d : dict) (k : string) : option pyval :=
  match d with
  | [] => None
  | (k', v) :: r => if String.eqb k' k then Some v else lookup r k
  end.

Definition get_or (d : dict) (k : string) (default : pyval) : pyval :=
  match lookup d k with
  | Some v => v
  | None => default
  end.

(** [d.get(k)] *)
Definition get (d : dict) (k : string) : pyval := get_or d k VNone.

(** [d[k] = v]: an existing key keeps its place, a new key goes last. *)
Fixpoint set (d : dict) (k : string) (v : pyval) : dict :=
  match d with
  | [] => [(k, v)]
  | (k', v') :: r =>
      if String.eqb k' k then (k', v) :: r else (k', v') :: set r k v
  end.

End Py.

(* ====================================================================== *)
(** ** [hashlib.sha256] and [hmac] *)
(* ====================================================================== *)

Module Sha256.

(** Bytes and 32-bit words are integers; every operation reduces its
    result to 32 bits. *)
Definition mask32 : Z := 4294967295.
Definition wrap (x : Z) : Z := Z.land x mask32.
Definition add (x y : Z) : Z := wrap (x + y).

Definition rotr (n x : Z) : Z :=
  Z.lor (Z.shiftr x n) (wrap (Z.shiftl x (32 - n))).
Definition shr (n x : Z) : Z := Z.shiftr x n.

Definition Ch (x y z : Z) : Z :=
  Z.lxor (Z.land x y) (Z.land (Z.lxor x mask32) z).
Definition Maj (x y z : Z) : Z :=
  Z.lxor (Z.lxor (Z.land x y) (Z.land x z)) (Z.land y z).
Definition bsig0 (x : Z) : Z :=
  Z.lxor (Z.lxor (rotr 2 x) (rotr 13 x)) (rotr 22 x).
Definition bsig1 (x : Z) : Z :=
  Z.lxor (Z.lxor (rotr 6 x) (rotr 11 x)) (rotr 25 x).
Definition ssig0 (x : Z) : Z :=
  Z.lxor (Z.lxor (rotr 7 x) (rotr 18 x)) (shr 3 x).
Definition ssig1 (x : Z) : Z :=
  Z.lxor (Z.lxor (rotr 17 x) (rotr 19 x)) (shr 10 x).

(** The first sixty-four primes. *)
Definition primes : list Z :=
  [2; 3; 5; 7; 11; 13; 17; 19; 23; 29; 31; 37; 41; 43; 47; 53;
   59; 61; 67; 71; 73; 79; 83; 89; 97; 101; 103; 107; 109; 113; 127; 131;
   137; 139; 149; 151; 157; 163; 167; 173; 179; 181; 191; 193; 197; 199;
   211; 223; 227; 229; 233; 239; 241; 251; 257; 263; 269; 271; 277; 281;
   283; 293; 307; 311].

(** The integer cube root of a number below 2^108, one bit at a time. *)
Definition cube_root (n : Z) : Z :=
  fold_left (fun r i => let c := r + 2 ^ Z.of_nat i in
                        if Z.leb (c * c * c) n then c else r)
            (rev (seq 0 36)) 0.

(** The round constants: the first thirty-two bits of the fractional part
    of the cube root of each prime. *)
Definition K : list Z :=
  Eval vm_compute in map (fun p => wrap (cube_root (p * 2 ^ 96))) primes.

(** The eight working words. *)
Record state : Type := State {
  sa : Z; sb : Z; sc : Z; sd : Z; se : Z; sf : Z; sg : Z; sh : Z
}.

(** The initial words: the first thirty-two bits of the fractional part of
    the square root of each of the first eight primes. *)
Definition root_word (p : Z) : Z := wrap (Z.sqrt (p * 2 ^ 64)).

Definition initial : state :=
  Eval vm_compute in
    State (root_word 2) (root_word 3) (root_word 5) (root_word 7)
          (root_word 11) (root_word 13) (root_word 17) (root_word 19).

(** Big-endian bytes of an integer, [n] of them. *)
Fixpoint be_bytes (n : nat) (x : Z) : list Z :=
  match n with
  | O => []
  | S k => Z.land (Z.shiftr x (8 * Z.of_nat k)) 255 :: be_bytes k x
  end.

Fixpoint be_value (acc : Z) (bytes : list Z) : Z :=
  match bytes with
  | [] => acc
  | b :: r => be_value (Z.lor (Z.shiftl acc 8) b) r
  end.

(** Padding: a one bit, zeros up to 56 modulo 64, the bit length on 64
    bits. *)
Definition pad (msg : list Z) : list Z :=
  let len := Z.of_nat (List.length msg) in
  let fill := Z.to_nat ((55 - len) mod 64) in
  (msg ++ 128 :: repeat 0 fill ++ be_bytes 8 (8 * len))%list.

Fixpoint chunks {A : Type} (size fuel : nat) (l : list A) : list (list A) :=
  match fuel with
  | O => []
  | S k =>
      match l with
      | [] => []
      | _ => firstn size l :: chunks size k (skipn size l)
      end
  end.

(** The message schedule: sixteen words of the block, then forty-eight
    derived ones.  [recent] holds the last sixteen words, newest first. *)
Fixpoint extend (n : nat) (recent : list Z) : list Z :=
  match n with
  | O => []
  | S k =>
      let w := add (add (ssig1 (nth 1 recent 0)) (nth 6 recent 0))
                   (add (ssig0 (nth 14 recent 0)) (nth 15 recent 0)) in
      w :: extend k (w :: firstn 15 recent)
  end.

Definition schedule (block : list Z) : list Z :=
  let w16 := map (be_value 0) (chunks 4 16 block) in
  (w16 ++ extend 48 (rev w16))%list.

Definition round (s : state) (kw : Z * Z) : state :=
  let t1 := add (add (add (sh s) (bsig1 (se s)))
                     (add (Ch (se s) (sf s) (sg s)) (fst kw))) (snd kw) in
  let t2 := add (bsig0 (sa s)) (Maj (sa s) (sb s) (sc s)) in
  State (add t1 t2) (sa s) (sb s) (sc s) (add (sd s) t1) (se s) (sf s) (sg s).

Definition compress (h : state) (block : list Z) : state :=
  let s := fold_left round (combine K (schedule block)) h in
  State (add (sa h) (sa s)) (add (sb h) (sb s)) (add (sc h) (sc s))
        (add (sd h) (sd s)) (add (se h) (se s)) (add (sf h) (sf s))
        (add (sg h) (sg s)) (add (sh h) (sh s)).

Definition words (s : state) : list Z :=
  [sa s; sb s; sc s; sd s; se s; sf s; sg s; sh s].

(** [hashlib.sha256(msg).digest()] *)
Definition digest (msg : list Z) : list Z :=
  let p := pad msg in
  flat_map (be_bytes 4)
           (words (fold_left compress (chunks 64 (List.length p) p) initial)).

End Sha256.

Module Hmac.

Definition block_size : nat := 64.

Definition xor_with (c : Z) (l : list Z) : list Z := map (Z.lxor c) l.

(** The key, hashed when longer than a block, filled with zeros to a
    block. *)
Definition block_key (key : list Z) : list Z :=
  let k := if Nat.ltb block_size (List.length key)
           then Sha256.digest key else key in
  (k ++ repeat 0 (block_size - List.length k))%list.

(** [hmac.new(key, msg, hashlib.sha256).digest()] *)
Definition digest (key msg : list Z) : list Z :=
  let k := block_key key in
  Sha256.digest (xor_with 92 k ++ Sha256.digest (xor_with 54 k ++ msg))%list.

(** [.hexdigest()]: two lowercase hexadecimal digits per byte. *)
Definition hex (bytes : list Z) : string :=
  Text.text
    (flat_map (fun b => [Text.hex_digit false (Z.to_N (Z.land (Z.shiftr b 4) 15));
                         Text.hex_digit false (Z.to_N (Z.land b 15))])
              bytes).

(** [s.encode('utf-8')] *)
Definition encode (s : string) : list Z :=
  map (fun c => Z.of_N (Text.code c)) (Text.chars s).

Definition hexdigest (key msg : string) : string :=
  hex (digest (encode key) (encode msg)).

End Hmac.

(* ====================================================================== *)
(** ** [urllib.parse.urlencode] *)
(* ====================================================================== *)

Module Url.
Import Text.

(** The characters [quote_plus] never escapes. *)
Definition always_safe (c : ascii) : bool :=
  (is_digit c || is_lower c || is_upper c
   || existsb (Ascii.eqb c) (chars "_.-~"))%bool.

Definition quote_char (c : ascii) : list ascii :=
  if always_safe c then [c]
  else if Ascii.eqb c " "%char then ["+"%char]
  else ["%"%char; hex_digit true (code c / 16); hex_digit true (code c mod 16)].

(** [quote_plus(s)] *)
Definition quote_plus (s : string) : string :=
  text (flat_map quote_char (chars s)).

(** [urlencode(params)]: [key=value] pairs in the order of the mapping,
    joined by [&]. *)
Definition urlencode (params : dict) : string :=
  join "&" (map (fun kv => quote_plus (fst kv) ++ "=" ++ quote_plus (Py.str (snd kv)))
                params).

End Url.

(* ====================================================================== *)
(** ** Exceptions, results and the world *)
(* ====================================================================== *)

(** The classes of [requests.exceptions] that matter to the handlers:
    [ConnectTimeout] derives from both [ConnectionError] and [Timeout]. *)
Inductive requests_class : Type :=
| ReadTimeout
| ConnectTimeout
| ConnectionError
| OtherRequestException.

Definition is_Timeout (c : requests_class) : bool :=
  match c with ReadTimeout | ConnectTimeout => true | _ => false end.

Definition is_ConnectionError (c : requests_class) : bool :=
  match c with ConnectTimeout | ConnectionError => true | _ => false end.

(** Exceptions, all of them subclasses of [Exception]. *)
Inductive exn : Type :=
| ValidationError (message : string)
| BinanceAPIError (status_code : Z) (error_code message : pyval)
| ValueError (message : string)
| AttributeError (message : string)
| KeyError (key : string)
| InvalidOperation
| RequestException (class : requests_class) (message : string)
| OtherException (class_name message : string).

Inductive result (A : Type) : Type :=
| Return (a : A)
| Raise (e : exn).

Arguments Return {A} a.
Arguments Raise {A} e.

Definition type_name (v : pyval) : string :=
  match v with
  | VNone => "NoneType"
  | VBool _ => "bool"
  | VInt _ => "int"
  | VFloat _ => "float"
  | VStr _ => "str"
  | VList _ => "list"
  | VDict _ => "dict"
  end.

Definition no_attribute (v : pyval) (attr : string) : exn :=
  AttributeError ("'" ++ type_name v ++ "' object has no attribute '" ++ attr ++ "'").

(** [str(e)] *)
Definition exn_str (e : exn) : string :=
  match e with
  | ValidationError m => m
  | BinanceAPIError _ code m => "API Error " ++ Py.str code ++ ": " ++ Py.str m
  | ValueError m => m
  | AttributeError m => m
  | KeyError k => Py.str_repr k
  | InvalidOperation => "[<class 'decimal.InvalidOperation'>]"
  | RequestException _ m => m
  | OtherException _ m => m
  end.

(** [v.get(k, default)]: only a [dict] has the method. *)
Definition attr_get (v : pyval) (k : string) (default : pyval) : result pyval :=
  match v with
  | VDict d => Return (Py.get_or d k default)
  | _ => Raise (no_attribute v "get")
  end.

(** [d[k]] *)
Definition getitem (d : dict) (k : string) : result pyval :=
  match Py.lookup d k with
  | Some v => Return v
  | None => Raise (KeyError k)
  end.

(** Where an HTTP request carries its parameters. *)
Inductive placement : Type := InQuery | InBody.

Record http_request : Type := Request {
  req_method : string;
  req_url : string;
  req_headers : list (string * string);
  req_params : dict;
  req_placement : placement;
  req_timeout : Z
}.

(** What the session gives back: a response with its status and its body
    decoded as JSON ([None] when the body is not JSON), or an exception. *)
Inductive http_outcome : Type :=
| Response (status_code : Z) (json : option pyval)
| Failure (e : exn).

(** The world: the clock in epoch milliseconds at each reading, the outcome
    of each HTTP exchange, and the trace of the requests sent. *)
Record world : Type := World {
  clock : nat -> Z;
  clock_reads : nat;
  network : nat -> http_outcome;
  sent : list http_request
}.

Definition M (A : Type) : Type := world -> result A * world.

Definition ret {A : Type} (a : A) : M A := fun w => (Return a, w).
Definition raise {A : Type} (e : exn) : M A := fun w => (Raise e, w).

Definition bind {A B : Type} (m : M A) (k : A -> M B) : M B :=
  fun w =>
    match m w with
    | (Return a, w') => k a w'
    | (Raise e, w') => (Raise e, w')
    end.

Definition lift {A : Type} (r : result A) : M A := fun w => (r, w).

(** [try: body except ...]: [handler] gives the clause that matches the
    exception, or [None] when none does and the exception goes on. *)
Definition try_except {A : Type} (body : M A) (handler : exn -> option (M A)) : M A :=
  fun w =>
    match body w with
    | (Return a, w') => (Return a, w')
    | (Raise e, w') =>
        match handler e with
        | Some h => h w'
        | None => (Raise e, w')
        end
    end.

Declare Scope py_scope.
Delimit Scope py_scope with py.
Notation "x <- m ;; k" := (bind m (fun x => k))
  (at level 100, m at next level, right associativity) : py_scope.
Notation "'do' m ;; k" := (bind m (fun _ => k))
  (at level 100, m at next level, right associativity) : py_scope.

(** Pure code that raises. *)
Definition rbind {A B : Type} (r : result A) (k : A -> result B) : result B :=
  match r with
  | Return a => k a
  | Raise e => Raise e
  end.

Notation "x <~ r ;; k" := (rbind r (fun x => k))
  (at level 100, r at next level, right associativity) : py_scope.

Local Open Scope py_scope.

(* ====================================================================== *)
(** ** [bot/validators.py] *)
(* ====================================================================== *)

Module Validators.
Import Text.

Definition VALID_SIDES : list string := ["BUY"; "SELL"].
Definition VALID_ORDER_TYPES : list string := ["MARKET"; "LIMIT"].

(** [x in l] for a list of strings *)
Definition mem (x : string) (l : list string) : bool :=
  existsb (String.eqb x) l.

(** [v.upper().strip()]: only a [str] has the methods. *)
Definition upper_strip (v : pyval) : result string :=
  match v with
  | VStr s => Return (strip (upper s))
  | _ => Raise (no_attribute v "upper")
  end.

Definition validate_symbol (symbol : pyval) : result pyval :=
  if negb (Py.truthy symbol) then Raise (ValidationError "Symbol is required")
  else
    symbol <~ upper_strip symbol ;;
    if negb (endswith symbol "USDT") then
      Raise (ValidationError
               ("Invalid symbol format: " ++ symbol ++ ". Must end with USDT"))
    else Return (VStr symbol).

Definition validate_side (side : pyval) : result pyval :=
  if negb (Py.truthy side) then Raise (ValidationError "Side is required")
  else
    side <~ upper_strip side ;;
    if negb (mem side VALID_SIDES) then
      Raise (ValidationError ("Invalid side: " ++ side ++ ". Must be BUY or SELL"))
    else Return (VStr side).

Definition validate_order_type (order_type : pyval) : result pyval :=
  if negb (Py.truthy order_type) then
    Raise (ValidationError "Order type is required")
  else
    order_type <~ upper_strip order_type ;;
    if negb (mem order_type VALID_ORDER_TYPES) then
      Raise (ValidationError
               ("Invalid order type: " ++ order_type ++ ". Must be MARKET or LIMIT"))
    else Return (VStr order_type).

(** [Decimal(str(quantity))] is under [except (InvalidOperation,
    ValueError)]; the test [qty <= 0] is after the handler, so what it
    raises is not caught here.  [float(qty)] is carried as [VFloat qty],
    the float of that decimal: the rounding of the conversion, its
    underflow to zero and its overflow to infinity are not modelled. *)
Definition validate_quantity (quantity : pyval) : result pyval :=
  if Py.is_none quantity then Raise (ValidationError "Quantity is required")
  else
    match Dec.of_string (Py.str quantity) with
    | None => Raise (ValidationError ("Invalid quantity: " ++ Py.str quantity))
    | Some qty =>
        match Dec.le_zero qty with
        | None => Raise InvalidOperation
        | Some true => Raise (ValidationError "Quantity must be greater than 0")
        | Some false => Return (VFloat qty)
        end
    end.

Definition validate_price (price order_type : pyval) : result pyval :=
  if Py.eq_str order_type "LIMIT" then
    if Py.is_none price then
      Raise (ValidationError "Price is required for LIMIT orders")
    else
      match Dec.of_string (Py.str price) with
      | None => Raise (ValidationError ("Invalid price: " ++ Py.str price))
      | Some p =>
          match Dec.le_zero p with
          | None => Raise InvalidOperation
          | Some true => Raise (ValidationError "Price must be greater than 0")
          | Some false => Return (VFloat p)
          end
      end
  else Return VNone.

(** The dict literal evaluates its four values in order; the first one
    that raises ends the call. *)
Definition validate_order_params
           (symbol side order_type quantity price : pyval) : result dict :=
  v_symbol <~ validate_symbol symbol ;;
  v_side <~ validate_side side ;;
  v_order_type <~ validate_order_type order_type ;;
  v_quantity <~ validate_quantity quantity ;;
  let validated :=
    [("symbol", v_symbol); ("side", v_side);
     ("order_type", v_order_type); ("quantity", v_quantity)] in
  v_type <~ getitem validated "order_type" ;;
  v_price <~ validate_price price v_type ;;
  Return (Py.set validated "price" v_price).

End Validators.

(* ====================================================================== *)
(** ** [bot/client.py] *)
(* ====================================================================== *)

Module Client.

Record BinanceClient : Type := {
  api_key : string;
  api_secret : string
}.

Definition BASE_URL : string := "https://testnet.binancefuture.com".

(** [BinanceClient(api_key, api_secret)] *)
Definition init (key secret : string) : result BinanceClient :=
  if (String.eqb key "" || String.eqb secret "")%bool
  then Raise (ValueError "API key and secret are required")
  else Return {| api_key := key; api_secret := secret |}.

(** The headers the session puts on every request. *)
Definition session_headers (self : BinanceClient) : list (string * string) :=
  [("X-MBX-APIKEY", api_key self);
   ("Content-Type", "application/x-www-form-urlencoded")].

Definition _generate_signature (self : BinanceClient) (params : dict) : string :=
  let query_string := Url.urlencode params in
  Hmac.hexdigest (api_secret self) query_string.

(** [int(time.time() * 1000)]: one reading of the clock. *)
Definition _get_timestamp : M Z :=
  fun w =>
    (Return (clock w (clock_reads w)),
     World (clock w) (S (clock_reads w)) (network w) (sent w)).

(** One exchange through [self.session]: the request joins the trace and
    the network answers. *)
Definition session_send (self : BinanceClient) (method url : string)
           (params : dict) (where_ : placement) : M (Z * option pyval) :=
  fun w =>
    let request := Request method url (session_headers self) params where_ 30 in
    let w' := World (clock w) (clock_reads w) (network w)
                    (sent w ++ [request])%list in
    match network w (List.length (sent w)) with
    | Response status json => (Return (status, json), w')
    | Failure e => (Raise e, w')
    end.

(** The three [except] clauses around the exchange, in their order. *)
Definition transport_handler (e : exn) : option (M pyval) :=
  match e with
  | RequestException c m =>
      if is_Timeout c then
        Some (raise (BinanceAPIError 0 (VStr "TIMEOUT") (VStr "Request timed out")))
      else if is_ConnectionError c then
        Some (raise (BinanceAPIError 0 (VStr "CONNECTION_ERROR") (VStr (exn_str e))))
      else
        Some (raise (BinanceAPIError 0 (VStr "REQUEST_ERROR") (VStr (exn_str e))))
  | _ => None
  end.

(** [params = params or {}]; with [signed], the timestamp is set first and
    the signature of the map so far is set after it; then the exchange,
    under the three handlers. *)
Definition _make_request (self : BinanceClient) (method endpoint : string)
           (params : option dict) (signed : bool) : M pyval :=
  let url := BASE_URL ++ endpoint in
  let params :=
    match params with
    | Some p => if Py.truthy (VDict p) then p else []
    | None => []
    end in
  params <-
    (if signed then
       timestamp <- _get_timestamp ;;
       let params := Py.set params "timestamp" (VInt timestamp) in
       ret (Py.set params "signature" (VStr (_generate_signature self params)))
     else ret params) ;;
  try_except
    (response <-
       (if String.eqb method "GET" then session_send self "GET" url params InQuery
        else if String.eqb method "POST" then session_send self "POST" url params InBody
        else if String.eqb method "DELETE" then session_send self "DELETE" url params InQuery
        else raise (ValueError ("Unsupported HTTP method: " ++ method))) ;;
     let '(status_code, json) := response in
     data <-
       match json with
       | Some data => ret data
       | None =>
           raise (BinanceAPIError status_code (VStr "INVALID_JSON")
                                  (VStr "Invalid JSON response from server"))
       end ;;
     if negb (Z.eqb status_code 200) then
       error_code <- lift (attr_get data "code" (VStr "UNKNOWN")) ;;
       error_msg <- lift (attr_get data "msg" (VStr "Unknown error")) ;;
       raise (BinanceAPIError status_code error_code error_msg)
     else ret data)
    transport_handler.

Definition get_server_time (self : BinanceClient) : M pyval :=
  _make_request self "GET" "/fapi/v1/time" None false.

Definition get_exchange_info (self : BinanceClient) : M pyval :=
  _make_request self "GET" "/fapi/v1/exchangeInfo" None false.

Definition get_account_info (self : BinanceClient) : M pyval :=
  _make_request self "GET" "/fapi/v2/account" None true.

Definition get_symbol_price (self : BinanceClient) (symbol : pyval) : M pyval :=
  _make_request self "GET" "/fapi/v1/ticker/price" (Some [("symbol", symbol)]) false.

(** The parameter map of [place_order], before it is handed to
    [_make_request]. *)
Definition place_order_params
           (symbol side order_type quantity price time_in_force reduce_only : pyval)
  : result dict :=
  let params :=
    [("symbol", symbol); ("side", side); ("type", order_type);
     ("quantity", quantity)] in
  params <~
    (if Py.eq_str order_type "LIMIT" then
       if Py.is_none price then Raise (ValueError "Price required for LIMIT orders")
       else
         let params := Py.set params "price" price in
         Return (Py.set params "timeInForce" (Py.por time_in_force (VStr "GTC")))
     else Return params) ;;
  Return (if Py.truthy reduce_only
          then Py.set params "reduceOnly" (VStr "true")
          else params).

Definition place_order (self : BinanceClient)
           (symbol side order_type quantity price time_in_force reduce_only : pyval)
  : M pyval :=
  params <- lift (place_order_params symbol side order_type quantity price
                                     time_in_force reduce_only) ;;
  _make_request self "POST" "/fapi/v1/order" (Some params) true.

Definition cancel_order (self : BinanceClient) (symbol order_id : pyval) : M pyval :=
  let params := [("symbol", symbol); ("orderId", order_id)] in
  _make_request self "DELETE" "/fapi/v1/order" (Some params) true.

Definition get_open_orders (self : BinanceClient) (symbol : pyval) : M pyval :=
  let params := [] in
  let params := if Py.truthy symbol then Py.set params "symbol" symbol else params in
  _make_request self "GET" "/fapi/v1/openOrders" (Some params) true.

(** Every exception is swallowed. *)
Definition test_connectivity (self : BinanceClient) : M bool :=
  try_except (do get_server_time self ;; ret true)
             (fun _ => Some (ret false)).

(** [params.copy()], with the value under ['signature'] masked when the
    key is there. *)
Definition _sanitize_params (params : dict) : dict :=
  let sanitized := params in
  match Py.lookup sanitized "signature" with
  | Some _ => Py.set sanitized "signature" (VStr "***")
  | None => sanitized
  end.

End Client.

(* ====================================================================== *)
(** ** [bot/orders.py] *)
(* ====================================================================== *)

Module Orders.
Import Text.

Record OrderManager : Type := {
  client : Client.BinanceClient
}.

Definition _format_order_response (response : pyval) : result dict :=
  order_id <~ attr_get response "orderId" VNone ;;
  symbol <~ attr_get response "symbol" VNone ;;
  side <~ attr_get response "side" VNone ;;
  type <~ attr_get response "type" VNone ;;
  status <~ attr_get response "status" VNone ;;
  quantity <~ attr_get response "origQty" VNone ;;
  executed_qty <~ attr_get response "executedQty" VNone ;;
  price <~ attr_get response "price" VNone ;;
  avg_price <~ attr_get response "avgPrice" VNone ;;
  time_in_force <~ attr_get response "timeInForce" VNone ;;
  reduce_only <~ attr_get response "reduceOnly" VNone ;;
  timestamp <~ attr_get response "updateTime" VNone ;;
  Return [("order_id", order_id); ("symbol", symbol); ("side", side);
          ("type", type); ("status", status); ("quantity", quantity);
          ("executed_qty", executed_qty); ("price", price);
          ("avg_price", avg_price); ("time_in_force", time_in_force);
          ("reduce_only", reduce_only); ("timestamp", timestamp);
          ("raw_response", response)].

(** The three [except] clauses of [place_order] as result records. *)
Definition validation_failure (e_str : string) : dict :=
  [("success", VBool false); ("error", VStr e_str);
   ("error_type", VStr "VALIDATION_ERROR")].

Definition api_failure (message error_code : pyval) : dict :=
  [("success", VBool false); ("error", message);
   ("error_code", error_code); ("error_type", VStr "API_ERROR")].

Definition unknown_failure (e_str : string) : dict :=
  [("success", VBool false); ("error", VStr e_str);
   ("error_type", VStr "UNKNOWN_ERROR")].

(** The second [try] block of [place_order]: the call of the client with
    the five validated fields, then the formatting of the response. *)
Definition place_validated (self : OrderManager) (validated : dict) : M dict :=
  symbol <- lift (getitem validated "symbol") ;;
  side <- lift (getitem validated "side") ;;
  order_type <- lift (getitem validated "order_type") ;;
  quantity <- lift (getitem validated "quantity") ;;
  price <- lift (getitem validated "price") ;;
  response <- Client.place_order (client self) symbol side order_type quantity
                                 price VNone (VBool false) ;;
  result <- lift (_format_order_response response) ;;
  let result := Py.set result "success" (VBool true) in
  do lift (getitem result "order_id") ;;
  ret result.

Definition place_order (self : OrderManager)
           (symbol side order_type quantity price : pyval) : M dict :=
  match Validators.validate_order_params symbol side order_type quantity price with
  | Raise (ValidationError m) => ret (validation_failure (exn_str (ValidationError m)))
  | Raise e => raise e
  | Return validated =>
      try_except
        (place_validated self validated)
        (fun e =>
           match e with
           | BinanceAPIError _ error_code message =>
               Some (ret (api_failure message error_code))
           | _ => Some (ret (unknown_failure (exn_str e)))
           end)
  end.

Definition rule : string := repeat_char "="%char 50.

Definition field (label : string) (order_result : dict) (key : string) : string :=
  label ++ Py.str (Py.get order_result key).

(** The lines of the report, before they are joined. *)
Definition summary_lines (order_result : dict) : list string :=
  let lines :=
    [rule; "ORDER EXECUTED SUCCESSFULLY"; rule;
     field "Order ID:     " order_result "order_id";
     field "Symbol:       " order_result "symbol";
     field "Side:         " order_result "side";
     field "Type:         " order_result "type";
     field "Status:       " order_result "status";
     field "Quantity:     " order_result "quantity";
     field "Executed:     " order_result "executed_qty"] in
  let lines :=
    if (Py.truthy (Py.get order_result "price")
        && negb (Py.eq_str (Py.get order_result "price") "0"))%bool
    then (lines ++ [field "Price:        " order_result "price"])%list
    else lines in
  let lines :=
    if (Py.truthy (Py.get order_result "avg_price")
        && negb (Py.eq_str (Py.get order_result "avg_price") "0"))%bool
    then (lines ++ [field "Avg Price:    " order_result "avg_price"])%list
    else lines in
  (lines ++ [rule])%list.

Definition newline : string := String (ascii_of_N 10) "".

Definition get_order_summary (order_result : dict) : string :=
  if negb (Py.truthy (Py.get order_result "success")) then
    "Order Failed: " ++ Py.str (Py.get order_result "error")
  else join newline (summary_lines order_result).

Definition cancel_order (self : OrderManager) (symbol order_id : pyval) : M dict :=
  try_except
    (response <- Client.cancel_order (client self) symbol order_id ;;
     ret [("success", VBool true); ("response", response)])
    (fun e =>
       match e with
       | BinanceAPIError _ _ message =>
           Some (ret [("success", VBool false); ("error", message)])
       | _ => None
       end).

Definition get_open_orders (self : OrderManager) (symbol : pyval) : M dict :=
  try_except
    (orders <- Client.get_open_orders (client self) symbol ;;
     ret [("success", VBool true); ("orders", orders)])
    (fun e =>
       match e with
       | BinanceAPIError _ _ message =>
           Some (ret [("success", VBool false); ("error", message)])
       | _ => None
       end).

End Orders.

(* ====================================================================== *)
(** ** [interactive.py]: the validators of the menu *)
(* ====================================================================== *)

Module Interactive.
Import Text.

(** The validators of the menu take the text the user typed and raise
    [ValueError]. *)
Definition validate_symbol (value : string) : result string :=
  let value := strip (upper value) in
  if negb (endswith value "USDT") then
    Raise (ValueError "Symbol must end with USDT (e.g., BTCUSDT)")
  else Return value.

Definition validate_side (value : string) : result string :=
  let value := strip (upper value) in
  if negb (Validators.mem value ["BUY"; "SELL"; "B"; "S"]) then
    Raise (ValueError "Must be BUY/B or SELL/S")
  else Return (if Validators.mem value ["BUY"; "B"] then "BUY" else "SELL").

End Interactive.

(* ====================================================================== *)
(** ** Vocabulary of the statements *)
(* ====================================================================== *)

(** The requests an operation adds to the trace when run in [w]. *)
Definition new_requests {A : Type} (op : M A) (w : world) : list http_request :=
  skipn (List.length (sent w)) (sent (snd (op w))).

(** The clock reading the next call of [_get_timestamp] returns. *)
Definition now (w : world) : Z := clock w (clock_reads w).

(** [params or {}] *)
Definition or_empty (params : option dict) : dict :=
  match params with
  | Some p => p
  | None => []
  end.

(** The methods [_make_request] dispatches. *)
Definition supported (method : string) : bool :=
  (String.eqb method "GET" || String.eqb method "POST"
   || String.eqb method "DELETE")%bool.

Definition placement_of (method : string) : placement :=
  if String.eqb method "POST" then InBody else InQuery.

(** What [_make_request] makes of the outcome of one exchange. *)
Definition classify (o : http_outcome) : result pyval :=
  match o with
  | Failure (RequestException c m) =>
      if is_Timeout c then
        Raise (BinanceAPIError 0 (VStr "TIMEOUT") (VStr "Request timed out"))
      else if is_ConnectionError c then
        Raise (BinanceAPIError 0 (VStr "CONNECTION_ERROR") (VStr m))
      else Raise (BinanceAPIError 0 (VStr "REQUEST_ERROR") (VStr m))
  | Failure e => Raise e
  | Response status None =>
      Raise (BinanceAPIError status (VStr "INVALID_JSON")
                             (VStr "Invalid JSON response from server"))
  | Response status (Some data) =>
      if Z.eqb status 200 then Return data
      else
        match data with
        | VDict d =>
            Raise (BinanceAPIError status (Py.get_or d "code" (VStr "UNKNOWN"))
                                   (Py.get_or d "msg" (VStr "Unknown error")))
        | _ => Raise (no_attribute data "get")
        end
  end.

(** The parameters of a signed request over the map [p]: the timestamp is
    set, then the signature of the map that holds it. *)
Definition with_timestamp (p : dict) (t : Z) : dict :=
  Py.set p "timestamp" (VInt t).

Definition signed_params (self : Client.BinanceClient) (p : dict) (t : Z) : dict :=
  Py.set (with_timestamp p t) "signature"
         (VStr (Client._generate_signature self (with_timestamp p t))).

(** A failure record of the Order Manager with one of the three error
    types. *)
Definition failure_record (r : dict) : Prop :=
  Py.lookup r "success" = Some (VBool false)
  /\ (exists e, Py.lookup r "error" = Some e)
  /\ (Py.lookup r "error_type" = Some (VStr "VALIDATION_ERROR")
      \/ Py.lookup r "error_type" = Some (VStr "API_ERROR")
      \/ Py.lookup r "error_type" = Some (VStr "UNKNOWN_ERROR")).

(** An operation that lets no exception out and reports every failure as a
    failure record. *)
Definition never_raises (op : M dict) : Prop :=
  forall w, exists r,
    fst (op w) = Return r
    /\ (Py.lookup r "success" = Some (VBool true) \/ failure_record r).

(** The text is made of lowercase hexadecimal digits. *)
Definition lower_hex (s : string) : Prop :=
  Forall (fun c => Text.is_lower_hex c = true) (Text.chars s).

(** The decimal is a number strictly greater than zero. *)
Definition positive (d : Dec.decimal) : Prop := Dec.le_zero d = Some false.

(** The record a successful validation returns. *)
Inductive canonical : dict -> Prop :=
| canonical_market sym side qty :
    Text.endswith sym "USDT" = true ->
    side = VStr "BUY" \/ side = VStr "SELL" ->
    positive qty ->
    canonical [("symbol", VStr sym); ("side", side);
               ("order_type", VStr "MARKET"); ("quantity", VFloat qty);
               ("price", VNone)]
| canonical_limit sym side qty price :
    Text.endswith sym "USDT" = true ->
    side = VStr "BUY" \/ side = VStr "SELL" ->
    positive qty ->
    positive price ->
    canonical [("symbol", VStr sym); ("side", side);
               ("order_type", VStr "LIMIT"); ("quantity", VFloat qty);
               ("price", VFloat price)].


(** The parameters of the order the manager places for a canonical
    record. *)
Definition order_params (validated : dict) : dict :=
  ([("symbol", Py.get validated "symbol"); ("side", Py.get validated "side");
   ("type", Py.get validated "order_type");
   ("quantity", Py.get validated "quantity")]
    ++ (if Py.eq_str (Py.get validated "order_type") "LIMIT"
        then [("price", Py.get validated "price"); ("timeInForce", VStr "GTC")]
        else []))%list.

(** What [place_order] returns for the outcome of the exchange. *)
Definition order_result (o : http_outcome) : dict :=
  match classify o with
  | Return response =>
      match Orders._format_order_response response with
      | Return r => Py.set r "success" (VBool true)
      | Raise e => Orders.unknown_failure (exn_str e)
      end
  | Raise (BinanceAPIError _ error_code message) => Orders.api_failure message error_code
  | Raise e => Orders.unknown_failure (exn_str e)
  end.

Definition order_request (self : Orders.OrderManager) (validated : dict) (w : world)
  : http_request :=
  Request "POST" (Client.BASE_URL ++ "/fapi/v1/order")
          (Client.session_headers (Orders.client self))
          (signed_params (Orders.client self) (order_params validated) (now w))
          InBody 30.


(** The specification's policy for the manager: no exception leaves order
    placement, cancellation or the query of open orders. *)
Definition manager_never_raises : Prop :=
  (forall self symbol side order_type quantity price,
      never_raises (Orders.place_order self symbol side order_type quantity price))
  /\ (forall self symbol order_id,
         never_raises (Orders.cancel_order self symbol order_id))
  /\ (forall self symbol, never_raises (Orders.get_open_orders self symbol)).

(** A list that [drop_while is_space] leaves alone. *)
Definition clean (l : list ascii) : Prop :=
  match l with
  | [] => True
  | c :: _ => Text.is_space c = false
  end.

(** The text has no lowercase ASCII letter and no whitespace at either end:
    it is what [upper().strip()] gives. *)
Definition normalised (s : string) : Prop :=
  Forall (fun c => Text.is_lower c = false) (Text.chars s)
  /\ Text.strip s = s.

(** The request of an unsigned or signed call of [_make_request]. *)
Definition request_of (self : Client.BinanceClient) (method endpoint : string)
           (params : dict) : http_request :=
  Request method (Client.BASE_URL ++ endpoint) (Client.session_headers self)
          params (placement_of method) 30.

(** A client, a clock and a one-answer network to run the code on. *)
Definition demo_client : Client.BinanceClient :=
  {| Client.api_key := "key"; Client.api_secret := "secret" |}.

Definition demo_manager : Orders.OrderManager :=
  {| Orders.client := demo_client |}.

Definition demo_world (o : http_outcome) : world :=
  World (fun _ => 1700000000000) 0 (fun _ => o) [].

(* ====================================================================== *)
(** ** Lemmas on the models *)
(* ====================================================================== *)

Arguments Client._generate_signature : simpl never.
Arguments Hmac.hexdigest : simpl never.

Module DictFacts.

Lemma set_fresh (d : dict) (k : string) (v : pyval) :
  Py.lookup d k = None -> Py.set d k v = (d ++ [(k, v)])%list.
Proof.
  induction d as [|[k' v'] r IH]; simpl; intros H; [reflexivity|].
  destruct (String.eqb k' k); [discriminate|].
  now rewrite IH.
Qed.

Lemma lookup_set_same (d : dict) (k : string) (v : pyval) :
  Py.lookup (Py.set d k v) k = Some v.
Proof.
  induction d as [|[k' v'] r IH]; simpl.
  - now rewrite String.eqb_refl.
  - destruct (String.eqb k' k) eqn:E; simpl; rewrite E; auto.
Qed.

Lemma lookup_set_other (d : dict) (k k' : string) (v : pyval) :
  k' <> k -> Py.lookup (Py.set d k v) k' = Py.lookup d k'.
Proof.
  intros N. induction d as [|[k0 v0] r IH]; simpl.
  - destruct (String.eqb k k') eqn:E; [|reflexivity].
    apply String.eqb_eq in E. congruence.
  - destruct (String.eqb k0 k) eqn:E; simpl.
    + apply String.eqb_eq in E. subst k0.
      destruct (String.eqb k k') eqn:E'; [|reflexivity].
      apply String.eqb_eq in E'. congruence.
    + now rewrite IH.
Qed.

End DictFacts.

Module TraceFacts.
Import Client.

Lemma skipn_app_exact {A : Type} (l r : list A) :
  skipn (List.length l) (l ++ r) = r.
Proof. induction l; simpl; auto. Qed.

(** One call of [_make_request] with a dispatched method: one request
    goes out, carrying the parameters (signed if asked), and the outcome
    of the exchange is classified. *)
Lemma make_request_run (self : BinanceClient) (method endpoint : string)
      (params : option dict) (signed : bool) (w : world) :
  supported method = true ->
  let p := or_empty params in
  let sent_params := if signed then signed_params self p (now w) else p in
  let request :=
    Request method (BASE_URL ++ endpoint) (session_headers self) sent_params
            (placement_of method) 30 in
  _make_request self method endpoint params signed w
  = (classify (network w (List.length (sent w))),
     World (clock w) (if signed then S (clock_reads w) else clock_reads w)
           (network w) (sent w ++ [request])).
Proof.
  intros Hm p sent_params request.
  assert (Hp : match params with
               | Some p0 => if Py.truthy (VDict p0) then p0 else []
               | None => []
               end = p).
  { subst p. destruct params as [[|? ?]|]; reflexivity. }
  unfold _make_request. rewrite Hp. clear Hp.
  unfold supported in Hm.
  assert (Hsend :
    (if String.eqb method "GET"
     then session_send self "GET" (BASE_URL ++ endpoint) sent_params InQuery
     else if String.eqb method "POST"
          then session_send self "POST" (BASE_URL ++ endpoint) sent_params InBody
          else if String.eqb method "DELETE"
               then session_send self "DELETE" (BASE_URL ++ endpoint) sent_params InQuery
               else raise (ValueError ("Unsupported HTTP method: " ++ method)))
    = session_send self method (BASE_URL ++ endpoint) sent_params (placement_of method)).
  { unfold placement_of.
    destruct (String.eqb method "GET") eqn:E1.
    - apply String.eqb_eq in E1. now subst method.
    - destruct (String.eqb method "POST") eqn:E2.
      + apply String.eqb_eq in E2. now subst method.
      + destruct (String.eqb method "DELETE") eqn:E3; [|discriminate].
        apply String.eqb_eq in E3. now subst method. }
  subst sent_params request.
  destruct signed; unfold bind, try_except, ret, _get_timestamp, now, signed_params,
    with_timestamp in *; cbn [fst snd clock clock_reads network sent];
    rewrite Hsend; unfold session_send; cbn [fst snd clock clock_reads network sent];
    destruct (network w (List.length (sent w))) as [status [data|]|e]; cbn;
    try reflexivity.
  all: try (destruct (Z.eqb status 200); cbn; [reflexivity|];
            destruct data; reflexivity).
  all: destruct e as [| | | | | |c m|]; cbn; try reflexivity;
    destruct (is_Timeout c); cbn; [reflexivity|];
    destruct (is_ConnectionError c); reflexivity.
Qed.

End TraceFacts.

Module ValidatorFacts.
Import Validators.

Lemma validate_symbol_returns x v :
  validate_symbol x = Return v ->
  exists s, v = VStr s /\ Text.endswith s "USDT" = true.
Proof.
  unfold validate_symbol.
  destruct (negb (Py.truthy x)); [discriminate|].
  destruct x; cbn [upper_strip rbind]; try discriminate.
  destruct (Text.endswith _ "USDT") eqn:E; cbn [negb]; [|discriminate].
  intros [= <-]. eauto.
Qed.

Lemma mem_cases x a b :
  mem x [a; b] = true -> x = a \/ x = b.
Proof.
  unfold mem; simpl.
  destruct (String.eqb x a) eqn:Ea; [apply String.eqb_eq in Ea; auto|].
  destruct (String.eqb x b) eqn:Eb; [apply String.eqb_eq in Eb; auto|].
  discriminate.
Qed.

Lemma validate_side_returns x v :
  validate_side x = Return v -> v = VStr "BUY" \/ v = VStr "SELL".
Proof.
  unfold validate_side.
  destruct (negb (Py.truthy x)); [discriminate|].
  destruct x; cbn [upper_strip rbind]; try discriminate.
  destruct (mem _ VALID_SIDES) eqn:E; cbn [negb]; [|discriminate].
  intros [= <-]. apply mem_cases in E. destruct E as [-> | ->]; auto.
Qed.

Lemma validate_order_type_returns x v :
  validate_order_type x = Return v -> v = VStr "MARKET" \/ v = VStr "LIMIT".
Proof.
  unfold validate_order_type.
  destruct (negb (Py.truthy x)); [discriminate|].
  destruct x; cbn [upper_strip rbind]; try discriminate.
  destruct (mem _ VALID_ORDER_TYPES) eqn:E; cbn [negb]; [|discriminate].
  intros [= <-]. apply mem_cases in E. destruct E as [-> | ->]; auto.
Qed.

Lemma validate_quantity_returns x v :
  validate_quantity x = Return v -> exists d, v = VFloat d /\ positive d.
Proof.
  unfold validate_quantity, positive.
  destruct (Py.is_none x); [discriminate|].
  destruct (Dec.of_string (Py.str x)) as [d|]; [|discriminate].
  destruct (Dec.le_zero d) as [[|]|] eqn:E; try discriminate.
  intros [= <-]. eauto.
Qed.

Lemma validate_price_returns p t v :
  validate_price p t = Return v ->
  (Py.eq_str t "LIMIT" = true /\ exists d, v = VFloat d /\ positive d)
  \/ (Py.eq_str t "LIMIT" = false /\ v = VNone).
Proof.
  unfold validate_price, positive.
  destruct (Py.eq_str t "LIMIT"); [|intros [= <-]; auto].
  destruct (Py.is_none p); [discriminate|].
  destruct (Dec.of_string (Py.str p)) as [d|]; [|discriminate].
  destruct (Dec.le_zero d) as [[|]|] eqn:E; try discriminate.
  intros [= <-]. left. eauto.
Qed.

Lemma validate_order_params_returns symbol side order_type quantity price v :
  validate_order_params symbol side order_type quantity price = Return v ->
  canonical v.
Proof.
  unfold validate_order_params, rbind.
  destruct (validate_symbol symbol) as [vs|] eqn:Es; [|discriminate].
  destruct (validate_side side) as [vd|] eqn:Ed; [|discriminate].
  destruct (validate_order_type order_type) as [vt|] eqn:Et; [|discriminate].
  destruct (validate_quantity quantity) as [vq|] eqn:Eq; [|discriminate].
  cbn [getitem Py.lookup String.eqb Ascii.eqb Bool.eqb].
  destruct (validate_price price vt) as [vp|] eqn:Ep; [|discriminate].
  intros [= <-].
  apply validate_symbol_returns in Es as (s & -> & Hs).
  apply validate_side_returns in Ed.
  apply validate_quantity_returns in Eq as (q & -> & Hq).
  apply validate_price_returns in Ep.
  apply validate_order_type_returns in Et as [-> | ->];
    destruct Ep as [(Hl & d & -> & Hd) | (Hl & ->)]; try discriminate Hl;
    cbn; now constructor.
Qed.

End ValidatorFacts.

Module OrderFacts.
Import Orders ValidatorFacts.

(** The run of [place_order] after a successful validation: one signed
    POST, and the result read off the outcome of the exchange. *)
Lemma place_order_run self symbol side order_type quantity price validated w :
  Validators.validate_order_params symbol side order_type quantity price
  = Return validated ->
  place_order self symbol side order_type quantity price w
  = (Return (order_result (network w (List.length (sent w)))),
     World (clock w) (S (clock_reads w)) (network w)
           (sent w ++ [order_request self validated w])).
Proof.
  intros Hv. unfold place_order. rewrite Hv.
  apply validate_order_params_returns in Hv.
  unfold try_except, place_validated, order_request, order_result.
  destruct Hv as [sym sd qty Hs Hd Hq | sym sd qty pr Hs Hd Hq Hp];
    unfold bind at 1 2 3 4 5; cbn [lift getitem Py.lookup String.eqb Ascii.eqb Bool.eqb];
    unfold bind at 1; unfold Client.place_order;
    unfold bind at 1; cbn [lift Client.place_order_params rbind Py.eq_str
                                String.eqb Ascii.eqb Bool.eqb Py.is_none Py.truthy
                                Py.por Py.set];
    rewrite TraceFacts.make_request_run by reflexivity;
    cbn [or_empty placement_of String.eqb Ascii.eqb Bool.eqb];
    (destruct (classify (network w (List.length (sent w)))) as [resp | e];
     [ destruct resp; try reflexivity
     | destruct e; reflexivity ]).
Qed.

(** The call of the client that [place_order] makes for a canonical
    record: the same signed POST, with the outcome classified. *)
Lemma client_call_run self validated w :
  canonical validated ->
  Client.place_order (client self)
                     (Py.get validated "symbol") (Py.get validated "side")
                     (Py.get validated "order_type") (Py.get validated "quantity")
                     (Py.get validated "price") VNone (VBool false) w
  = (classify (network w (List.length (sent w))),
     World (clock w) (S (clock_reads w)) (network w)
           (sent w ++ [order_request self validated w])).
Proof.
  intros Hv. unfold order_request.
  destruct Hv as [sym sd qty Hs Hd Hq | sym sd qty pr Hs Hd Hq Hp];
    unfold Client.place_order, bind;
    cbn [lift Client.place_order_params rbind Py.eq_str Py.get Py.get_or Py.lookup
              String.eqb Ascii.eqb Bool.eqb Py.is_none Py.truthy Py.por Py.set];
    rewrite TraceFacts.make_request_run by reflexivity;
    reflexivity.
Qed.

End OrderFacts.

Module SignerFacts.

Lemma chars_text l : Text.chars (Text.text l) = l.
Proof. apply list_ascii_of_string_of_list_ascii. Qed.

Lemma length_text l : String.length (Text.text l) = List.length l.
Proof. induction l; simpl; auto. Qed.

Lemma nibble_range x : (Z.to_N (Z.land x 15) < 16)%N.
Proof.
  change 15 with (Z.ones 4). rewrite Z.land_ones by lia.
  pose proof (Z.mod_pos_bound x (2 ^ 4) ltac:(lia)). lia.
Qed.

Lemma hex_digit_lower n :
  (n < 16)%N -> Text.is_lower_hex (Text.hex_digit false n) = true.
Proof.
  intros H.
  assert (E : In n [0; 1; 2; 3; 4; 5; 6; 7; 8; 9; 10; 11; 12; 13; 14; 15]%N).
  { simpl. lia. }
  simpl in E.
  repeat (destruct E as [<- | E]; [reflexivity|]).
  contradiction.
Qed.

Lemma hex_shape bytes :
  String.length (Hmac.hex bytes) = (2 * List.length bytes)%nat
  /\ lower_hex (Hmac.hex bytes).
Proof.
  unfold Hmac.hex, lower_hex. rewrite length_text, chars_text.
  induction bytes as [|b r [IHl IHf]]; simpl.
  - split; [reflexivity | constructor].
  - split; [lia|].
    constructor; [apply hex_digit_lower, nibble_range|].
    constructor; [apply hex_digit_lower, nibble_range | exact IHf].
Qed.

Lemma sha256_digest_length msg : List.length (Sha256.digest msg) = 32%nat.
Proof.
  unfold Sha256.digest.
  generalize (fold_left Sha256.compress
                (Sha256.chunks 64 (List.length (Sha256.pad msg)) (Sha256.pad msg))
                Sha256.initial).
  intros s. reflexivity.
Qed.

Lemma hmac_digest_length key msg : List.length (Hmac.digest key msg) = 32%nat.
Proof. unfold Hmac.digest. apply sha256_digest_length. Qed.

End SignerFacts.

(* ====================================================================== *)
(** ** The claims *)
(* ====================================================================== *)

Import Client.

Lemma unsupported_sends_nothing self method endpoint params signed w :
  supported method = false ->
  sent (snd (_make_request self method endpoint params signed w)) = sent w.
Proof.
  unfold supported. intros H.
  destruct (String.eqb method "GET") eqn:E1; [discriminate|].
  destruct (String.eqb method "POST") eqn:E2; [discriminate|].
  destruct (String.eqb method "DELETE") eqn:E3; [discriminate|].
  unfold _make_request. rewrite E1, E2, E3.
  destruct signed; reflexivity.
Qed.

(** C1. Every request that [_make_request] sends with [signed] carries
    the caller's parameters in which [timestamp] was set to the current
    epoch milliseconds and then [signature] was set to the signature of
    that stamped map: the signed map holds the timestamp and every other
    caller parameter, and holds no signature field unless the caller put
    one in; when the caller's map has neither key the two are appended
    in this order. *)
Theorem signed_request_signs_stamped_params :
  forall (self : BinanceClient) (method endpoint : string)
         (params : option dict) (w : world) (req : http_request),
    In req (new_requests (_make_request self method endpoint params true) w) ->
    let p := or_empty params in
    let stamped := Py.set p "timestamp" (VInt (now w)) in
    let signature := VStr (_generate_signature self stamped) in
    req_params req = Py.set stamped "signature" signature
    /\ Py.lookup stamped "timestamp" = Some (VInt (now w))
    /\ (forall k v, k <> "timestamp" ->
                    Py.lookup p k = Some v -> Py.lookup stamped k = Some v)
    /\ (Py.lookup p "signature" = None -> Py.lookup stamped "signature" = None)
    /\ (Py.lookup p "timestamp" = None -> Py.lookup p "signature" = None ->
        req_params req = (p ++ [("timestamp", VInt (now w))]
                            ++ [("signature",
                                 VStr (_generate_signature
                                         self (p ++ [("timestamp", VInt (now w))])))])%list).
Proof.
  intros self method endpoint params w req Hin p stamped signature.
  assert (Hreq : req_params req = Py.set stamped "signature" signature).
  { unfold new_requests in Hin.
    destruct (supported method) eqn:Hm.
    - rewrite TraceFacts.make_request_run in Hin by exact Hm.
      cbn [snd sent] in Hin. rewrite TraceFacts.skipn_app_exact in Hin.
      destruct Hin as [<- | []]. reflexivity.
    - rewrite unsupported_sends_nothing in Hin by exact Hm.
      rewrite skipn_all in Hin. destruct Hin. }
  split; [exact Hreq|].
  split; [apply DictFacts.lookup_set_same|].
  split.
  { intros k v Hk Hl. subst stamped.
    rewrite DictFacts.lookup_set_other by exact Hk. exact Hl. }
  split.
  { intros Hl. subst stamped.
    rewrite DictFacts.lookup_set_other by discriminate. exact Hl. }
  intros Ht Hs. rewrite Hreq. subst signature stamped.
  rewrite (DictFacts.set_fresh p "timestamp") by exact Ht.
  rewrite DictFacts.set_fresh.
  - now rewrite <- app_assoc.
  - rewrite <- (DictFacts.set_fresh p "timestamp") by exact Ht.
    rewrite DictFacts.lookup_set_other by discriminate. exact Hs.
Qed.

Lemma signed_request_signs_stamped_params_witness :
  let w := demo_world (Response 200 (Some (VDict []))) in
  let req :=
    Request "GET" "https://testnet.binancefuture.com/fapi/v2/account"
            (session_headers demo_client)
            [("timestamp", VInt 1700000000000);
             ("signature",
              VStr "d615d05216c634afd48df5e1fc52c0d95b77892f19502e1b619f391bc9d68205")]
            InQuery 30 in
  In req (new_requests (_make_request demo_client "GET" "/fapi/v2/account" None true) w)
  /\ req_params req
     = Py.set (Py.set [] "timestamp" (VInt (now w))) "signature"
              (VStr (_generate_signature demo_client
                                         (Py.set [] "timestamp" (VInt (now w))))).
Proof.
  intros w req.
  assert (H : In req (new_requests
                        (_make_request demo_client "GET" "/fapi/v2/account" None true) w)).
  { vm_compute. left. reflexivity. }
  split; [exact H|].
  exact (proj1 (signed_request_signs_stamped_params
                  demo_client "GET" "/fapi/v2/account" None w req H)).
Defined.

(** The model of HMAC-SHA256 on the test vectors of RFC 4231 (case 2) and
    FIPS 180-4, and on a key longer than a block. *)
Example hmac_sha256_vectors :
  Hmac.hexdigest "Jefe" "what do ya want for nothing?"
  = "5bdcc146bf60754e6a042426089575c75a003f089d2739839dec58b964ec3843"
  /\ Hmac.hex (Sha256.digest (Hmac.encode "abc"))
     = "ba7816bf8f01cfea414140de5dae2223b00361a396177a9cb410ff61f20015ad"
  /\ Hmac.hex (Sha256.digest (Hmac.encode ""))
     = "e3b0c44298fc1c149afbf4c8996fb92427ae41e4649b934ca495991b7852b855"
  /\ Hmac.hexdigest
       "kkkkkkkkkkkkkkkkkkkkkkkkkkkkkkkkkkkkkkkkkkkkkkkkkkkkkkkkkkkkkkkkkkkkkkkkkkkkkkkkkkkkkkkk"
       "abc"
     = "20e8159ce683e40710c3d367854f26be9fee0439a6324a573505695e1b399b8a".
Proof. vm_compute. repeat split. Qed.

(** The signer on an order as the exchange receives it. *)
Example signature_of_market_order :
  Url.urlencode [("symbol", VStr "BTCUSDT"); ("side", VStr "BUY");
                 ("type", VStr "MARKET");
                 ("quantity", VFloat (Dec.Finite false 1 (-3)));
                 ("timestamp", VInt 1700000000000)]
  = "symbol=BTCUSDT&side=BUY&type=MARKET&quantity=0.001&timestamp=1700000000000"
  /\ _generate_signature demo_client
       [("symbol", VStr "BTCUSDT"); ("side", VStr "BUY"); ("type", VStr "MARKET");
        ("quantity", VFloat (Dec.Finite false 1 (-3)));
        ("timestamp", VInt 1700000000000)]
     = "6fd9d9f30a4ee69dc4b5f0910109ed9bffad52ae8bc1d509aef8dfbde5434393".
Proof. vm_compute. split; reflexivity. Qed.

(** C2. The signer is a total function of the parameter map and the secret
    alone: on every map, the empty one included, and every secret it
    returns the HMAC-SHA256 of the query string that lists the pairs of the
    map in insertion order, written as sixty-four lowercase hexadecimal
    digits; two clients that share the secret sign a map alike. *)
Theorem signature_is_deterministic_lowercase_hex :
  forall (key key' secret : string) (params : dict),
    let self := {| api_key := key; api_secret := secret |} in
    let self' := {| api_key := key'; api_secret := secret |} in
    let pair kv := Url.quote_plus (fst kv) ++ "=" ++ Url.quote_plus (Py.str (snd kv)) in
    _generate_signature self params
    = Hmac.hex (Hmac.digest (Hmac.encode secret)
                            (Hmac.encode (Text.join "&" (map pair params))))
    /\ _generate_signature self' params = _generate_signature self params
    /\ String.length (_generate_signature self params) = 64%nat
    /\ lower_hex (_generate_signature self params)
    /\ _generate_signature self []
       = Hmac.hex (Hmac.digest (Hmac.encode secret) []).
Proof.
  intros key key' secret params self self' pair.
  unfold _generate_signature, Hmac.hexdigest, Url.urlencode.
  cbn [api_secret self self'].
  split; [reflexivity|]. split; [reflexivity|].
  destruct (SignerFacts.hex_shape
              (Hmac.digest (Hmac.encode secret)
                 (Hmac.encode (Text.join "&" (map pair params))))) as [Hl Hh].
  rewrite SignerFacts.hmac_digest_length in Hl.
  split; [exact Hl|]. split; [exact Hh|]. reflexivity.
Qed.

(** C3. [place_order] of the client raises [ValueError] when the order type
    is ['LIMIT'] and the price is [None]; otherwise the map it hands to the
    signed POST holds, in this order, symbol, side, type and quantity, then
    price and timeInForce exactly when the type is ['LIMIT'], then
    reduceOnly as the string ['true'] exactly when [reduce_only] is
    true. *)
Theorem client_place_order_params :
  forall (self : BinanceClient)
         (symbol side order_type quantity price time_in_force reduce_only : pyval)
         (w : world),
    let limit := Py.eq_str order_type "LIMIT" in
    let params :=
      ([("symbol", symbol); ("side", side); ("type", order_type);
        ("quantity", quantity)]
         ++ (if limit
             then [("price", price);
                   ("timeInForce", if Py.truthy time_in_force then time_in_force
                                   else VStr "GTC")]
             else [])
         ++ (if Py.truthy reduce_only then [("reduceOnly", VStr "true")] else []))%list in
    place_order_params symbol side order_type quantity price time_in_force reduce_only
    = (if (limit && Py.is_none price)%bool
       then Raise (ValueError "Price required for LIMIT orders")
       else Return params)
    /\ Client.place_order self symbol side order_type quantity price time_in_force
                          reduce_only w
       = (if (limit && Py.is_none price)%bool
          then (Raise (ValueError "Price required for LIMIT orders"), w)
          else _make_request self "POST" "/fapi/v1/order" (Some params) true w).
Proof.
  intros self symbol side order_type quantity price time_in_force reduce_only w
         limit params.
  assert (H : place_order_params symbol side order_type quantity price
                                 time_in_force reduce_only
              = if (limit && Py.is_none price)%bool
                then Raise (ValueError "Price required for LIMIT orders")
                else Return params).
  { subst params limit. unfold place_order_params, Py.por.
    destruct (Py.eq_str order_type "LIMIT"); cbn [andb rbind].
    - destruct (Py.is_none price); [reflexivity|].
      destruct (Py.truthy reduce_only); reflexivity.
    - destruct (Py.truthy reduce_only); reflexivity. }
  split; [exact H|].
  unfold Client.place_order. rewrite H.
  destruct (limit && Py.is_none price)%bool; reflexivity.
Qed.

(** The path of [place_order] that works as intended: when the validator
    rejects the input with a [ValidationError], the manager returns the
    record [{success: False, error: <the validator's message>, error_type:
    'VALIDATION_ERROR'}] and leaves the world as it was, so no request is
    sent.  A ['LIMIT'] order with [price=None] whose other fields validate
    is such an input, with the message of [validate_price]. *)
Lemma validation_failure_on_validation_error :
  forall (self : Orders.OrderManager) (symbol side order_type quantity price : pyval)
         (w : world),
    (forall message,
        Validators.validate_order_params symbol side order_type quantity price
        = Raise (ValidationError message) ->
        Orders.place_order self symbol side order_type quantity price w
        = (Return [("success", VBool false); ("error", VStr message);
                   ("error_type", VStr "VALIDATION_ERROR")], w)
        /\ new_requests (Orders.place_order self symbol side order_type quantity price) w
           = [])
    /\ (forall v_symbol v_side v_quantity,
           Validators.validate_symbol symbol = Return v_symbol ->
           Validators.validate_side side = Return v_side ->
           Validators.validate_order_type order_type = Return (VStr "LIMIT") ->
           Validators.validate_quantity quantity = Return v_quantity ->
           price = VNone ->
           Orders.place_order self symbol side order_type quantity price w
           = (Return [("success", VBool false);
                      ("error", VStr "Price is required for LIMIT orders");
                      ("error_type", VStr "VALIDATION_ERROR")], w)).
Proof.
  intros self symbol side order_type quantity price w.
  assert (H : forall message,
             Validators.validate_order_params symbol side order_type quantity price
             = Raise (ValidationError message) ->
             Orders.place_order self symbol side order_type quantity price w
             = (Return [("success", VBool false); ("error", VStr message);
                        ("error_type", VStr "VALIDATION_ERROR")], w)).
  { intros message Hv. unfold Orders.place_order. rewrite Hv. reflexivity. }
  split.
  - intros message Hv. split; [now apply H|].
    unfold new_requests. rewrite (H message Hv). cbn [snd].
    apply skipn_all.
  - intros v_symbol v_side v_quantity Hs Hd Ht Hq ->.
    apply H. unfold Validators.validate_order_params.
    rewrite Hs, Hd, Ht, Hq. reflexivity.
Qed.

(** C4. Validation can fail without a [ValidationError]: on the quantity
    ["NaN"], with [price=None] on a ['LIMIT'] order or with any price, and
    on the price ["NaN"] of a ['LIMIT'] order, the validator raises
    [decimal.InvalidOperation]; [place_order] of the manager catches only
    [ValidationError] there, so instead of the record [{success: False,
    error_type: 'VALIDATION_ERROR'}] the exception leaves the manager.  No
    request is sent. *)
Theorem place_order_invalid_operation_leaves_manager :
  forall (self : Orders.OrderManager) (w : world),
    Validators.validate_order_params (VStr "BTCUSDT") (VStr "SELL") (VStr "LIMIT")
                                     (VStr "NaN") VNone
    = Raise InvalidOperation
    /\ Orders.place_order self (VStr "BTCUSDT") (VStr "SELL") (VStr "LIMIT")
                          (VStr "NaN") VNone w
       = (Raise InvalidOperation, w)
    /\ Orders.place_order self (VStr "BTCUSDT") (VStr "SELL") (VStr "LIMIT")
                          (VStr "0.001") (VStr "NaN") w
       = (Raise InvalidOperation, w)
    /\ Orders.place_order self (VStr "BTCUSDT") (VStr "BUY") (VStr "MARKET")
                          (VFloat (Dec.NaN false false 0)) VNone w
       = (Raise InvalidOperation, w).
Proof.
  intros self w.
  assert (H1 : Validators.validate_order_params
                 (VStr "BTCUSDT") (VStr "SELL") (VStr "LIMIT") (VStr "NaN") VNone
               = Raise InvalidOperation) by (vm_compute; reflexivity).
  assert (H2 : Validators.validate_order_params
                 (VStr "BTCUSDT") (VStr "SELL") (VStr "LIMIT") (VStr "0.001") (VStr "NaN")
               = Raise InvalidOperation) by (vm_compute; reflexivity).
  assert (H3 : Validators.validate_order_params
                 (VStr "BTCUSDT") (VStr "BUY") (VStr "MARKET")
                 (VFloat (Dec.NaN false false 0)) VNone
               = Raise InvalidOperation) by (vm_compute; reflexivity).
  split; [exact H1|].
  unfold Orders.place_order. rewrite H1, H2, H3. repeat split.
Qed.

(** The outcomes of [validate_quantity]: [None], a text that is no decimal
    and a number that is not above zero are refused with a
    [ValidationError]; a number above zero comes back as a float; a NaN gets
    through the parser and makes the comparison raise
    [decimal.InvalidOperation]. *)
Lemma validate_quantity_outcomes (quantity : pyval) :
  Validators.validate_quantity quantity =
  if Py.is_none quantity then Raise (ValidationError "Quantity is required")
  else
    match Dec.of_string (Py.str quantity) with
    | None => Raise (ValidationError ("Invalid quantity: " ++ Py.str quantity))
    | Some (Dec.NaN _ _ _) => Raise InvalidOperation
    | Some d =>
        if (match d with
            | Dec.Finite neg c _ => neg || N.eqb c 0
            | Dec.Infinity neg => neg
            | Dec.NaN _ _ _ => false
            end)%bool
        then Raise (ValidationError "Quantity must be greater than 0")
        else Return (VFloat d)
    end.
Proof.
  unfold Validators.validate_quantity.
  destruct (Py.is_none quantity); [reflexivity|].
  destruct (Dec.of_string (Py.str quantity)) as [[neg c e|neg|neg s p]|];
    reflexivity.
Qed.

(** C5. On the text ["NaN"] and on the float NaN, [validate_quantity]
    raises [decimal.InvalidOperation], which is neither the
    [ValidationError] nor the float that are the only outcomes the
    specification allows; the manager lets it out. *)
Theorem validate_quantity_nan_raises_invalid_operation :
  Validators.validate_quantity (VStr "NaN") = Raise InvalidOperation
  /\ Validators.validate_quantity (VFloat (Dec.NaN false false 0))
     = Raise InvalidOperation
  /\ fst (Orders.place_order demo_manager (VStr "BTCUSDT") (VStr "BUY")
                             (VStr "MARKET") (VStr "NaN") VNone
                             (demo_world (Response 200 (Some (VDict [])))))
     = Raise InvalidOperation.
Proof. vm_compute. repeat split. Qed.

(** C6. When the client raises an [ApiError] while the manager places a
    validated order, [place_order] of the manager returns [{success: False,
    error: <its message>, error_code: <its code>, error_type: 'API_ERROR'}];
    so an HTTP 400 whose body is [{"code": -1111, "msg": "Precision is over
    the maximum"}] gives that record with code [-1111] and that message. *)
Theorem api_error_becomes_api_error_result :
  forall (self : Orders.OrderManager) (symbol side order_type quantity price : pyval)
         (validated : dict) (w : world),
    Validators.validate_order_params symbol side order_type quantity price
    = Return validated ->
    (forall status code message w',
        Client.place_order (Orders.client self)
                           (Py.get validated "symbol") (Py.get validated "side")
                           (Py.get validated "order_type")
                           (Py.get validated "quantity")
                           (Py.get validated "price") VNone (VBool false) w
        = (Raise (BinanceAPIError status code message), w') ->
        Orders.place_order self symbol side order_type quantity price w
        = (Return [("success", VBool false); ("error", message);
                   ("error_code", code); ("error_type", VStr "API_ERROR")], w'))
    /\ (network w (List.length (sent w))
        = Response 400 (Some (VDict [("code", VInt (-1111));
                                     ("msg", VStr "Precision is over the maximum")])) ->
        fst (Orders.place_order self symbol side order_type quantity price w)
        = Return [("success", VBool false);
                  ("error", VStr "Precision is over the maximum");
                  ("error_code", VInt (-1111)); ("error_type", VStr "API_ERROR")]).
Proof.
  intros self symbol side order_type quantity price validated w Hv.
  rewrite (OrderFacts.place_order_run _ _ _ _ _ _ _ _ Hv).
  apply ValidatorFacts.validate_order_params_returns in Hv.
  split.
  - intros status code message w' Hc.
    rewrite (OrderFacts.client_call_run _ _ _ Hv) in Hc.
    injection Hc as Hc <-. unfold order_result. rewrite Hc. reflexivity.
  - intros Hn. cbn [fst]. rewrite Hn. reflexivity.
Qed.

Lemma api_error_becomes_api_error_result_witness :
  let w := demo_world
             (Response 400 (Some (VDict [("code", VInt (-1111));
                                         ("msg", VStr "Precision is over the maximum")]))) in
  let validated := [("symbol", VStr "BTCUSDT"); ("side", VStr "BUY");
                    ("order_type", VStr "LIMIT");
                    ("quantity", VFloat (Dec.Finite false 12345 (-4)));
                    ("price", VFloat (Dec.Finite false 50000 0))] in
  let w' := World (clock w) 1 (network w) [order_request demo_manager validated w] in
  let failure := [("success", VBool false);
                  ("error", VStr "Precision is over the maximum");
                  ("error_code", VInt (-1111)); ("error_type", VStr "API_ERROR")] in
  (Validators.validate_order_params (VStr "btcusdt") (VStr "buy") (VStr "limit")
                                    (VStr "1.2345") (VInt 50000)
   = Return validated
   /\ Client.place_order demo_client (VStr "BTCUSDT") (VStr "BUY") (VStr "LIMIT")
                         (VFloat (Dec.Finite false 12345 (-4)))
                         (VFloat (Dec.Finite false 50000 0)) VNone (VBool false) w
      = (Raise (BinanceAPIError 400 (VInt (-1111))
                                (VStr "Precision is over the maximum")), w')
   /\ network w (List.length (sent w))
      = Response 400 (Some (VDict [("code", VInt (-1111));
                                   ("msg", VStr "Precision is over the maximum")])))
  /\ Orders.place_order demo_manager (VStr "btcusdt") (VStr "buy") (VStr "limit")
                        (VStr "1.2345") (VInt 50000) w
     = (Return failure, w')
  /\ fst (Orders.place_order demo_manager (VStr "btcusdt") (VStr "buy") (VStr "limit")
                             (VStr "1.2345") (VInt 50000) w)
     = Return failure.
Proof.
  intros w validated w' failure.
  assert (Hv : Validators.validate_order_params
                 (VStr "btcusdt") (VStr "buy") (VStr "limit") (VStr "1.2345") (VInt 50000)
               = Return validated) by (vm_compute; reflexivity).
  assert (Hc : Client.place_order demo_client (VStr "BTCUSDT") (VStr "BUY") (VStr "LIMIT")
                                  (VFloat (Dec.Finite false 12345 (-4)))
                                  (VFloat (Dec.Finite false 50000 0)) VNone (VBool false) w
               = (Raise (BinanceAPIError 400 (VInt (-1111))
                                         (VStr "Precision is over the maximum")), w'))
    by (vm_compute; reflexivity).
  assert (Hn : network w (List.length (sent w))
               = Response 400 (Some (VDict [("code", VInt (-1111));
                                            ("msg", VStr "Precision is over the maximum")])))
    by reflexivity.
  destruct (api_error_becomes_api_error_result
              demo_manager (VStr "btcusdt") (VStr "buy") (VStr "limit")
              (VStr "1.2345") (VInt 50000) validated w Hv) as [H1 H2].
  split; [repeat split; assumption|].
  split.
  - exact (H1 400 (VInt (-1111)) (VStr "Precision is over the maximum") w' Hc).
  - exact (H2 Hn).
Defined.

(** C7. When the exchange of a request fails at the network level,
    [_make_request] raises an [ApiError] with status code 0 and a fixed
    code: [TIMEOUT] for a timeout, [CONNECTION_ERROR] for a failed
    connection, [REQUEST_ERROR] for any other failure of the transport; an
    order whose exchange times out comes back from the manager as
    [{success: False, error_type: 'API_ERROR', error_code: 'TIMEOUT'}]. *)
Theorem transport_failures_have_fixed_codes :
  forall (self : BinanceClient) (method endpoint : string) (params : option dict)
         (signed : bool) (manager : Orders.OrderManager)
         (symbol side order_type quantity price : pyval) (validated : dict)
         (w : world) (class : requests_class) (message : string),
    network w (List.length (sent w)) = Failure (RequestException class message) ->
    (supported method = true ->
     fst (_make_request self method endpoint params signed w)
     = Raise (BinanceAPIError
                0
                (VStr (if is_Timeout class then "TIMEOUT"
                       else if is_ConnectionError class then "CONNECTION_ERROR"
                            else "REQUEST_ERROR"))
                (VStr (if is_Timeout class then "Request timed out" else message))))
    /\ (Validators.validate_order_params symbol side order_type quantity price
        = Return validated ->
        is_Timeout class = true ->
        fst (Orders.place_order manager symbol side order_type quantity price w)
        = Return [("success", VBool false); ("error", VStr "Request timed out");
                  ("error_code", VStr "TIMEOUT"); ("error_type", VStr "API_ERROR")]).
Proof.
  intros self method endpoint params signed manager symbol side order_type quantity
         price validated w class message Hn.
  split.
  - intros Hm. rewrite TraceFacts.make_request_run by exact Hm.
    cbn [fst]. rewrite Hn. cbn [classify].
    destruct (is_Timeout class); [reflexivity|].
    destruct (is_ConnectionError class); reflexivity.
  - intros Hv Ht.
    rewrite (OrderFacts.place_order_run _ _ _ _ _ _ _ _ Hv).
    cbn [fst]. unfold order_result. rewrite Hn. cbn [classify]. rewrite Ht.
    reflexivity.
Qed.

Lemma transport_failures_have_fixed_codes_witness :
  let w := demo_world (Failure (RequestException ConnectTimeout "connect timed out")) in
  let validated := [("symbol", VStr "BTCUSDT"); ("side", VStr "BUY");
                    ("order_type", VStr "MARKET");
                    ("quantity", VFloat (Dec.Finite false 1 (-3)));
                    ("price", VNone)] in
  (network w (List.length (sent w))
   = Failure (RequestException ConnectTimeout "connect timed out")
   /\ supported "DELETE" = true
   /\ Validators.validate_order_params (VStr "BTCUSDT") (VStr "BUY") (VStr "MARKET")
                                       (VStr "0.001") VNone
      = Return validated
   /\ is_Timeout ConnectTimeout = true)
  /\ fst (_make_request demo_client "DELETE" "/fapi/v1/order" None true w)
     = Raise (BinanceAPIError 0 (VStr "TIMEOUT") (VStr "Request timed out"))
  /\ fst (Orders.place_order demo_manager (VStr "BTCUSDT") (VStr "BUY") (VStr "MARKET")
                             (VStr "0.001") VNone w)
     = Return [("success", VBool false); ("error", VStr "Request timed out");
               ("error_code", VStr "TIMEOUT"); ("error_type", VStr "API_ERROR")].
Proof.
  intros w validated.
  assert (Hn : network w (List.length (sent w))
               = Failure (RequestException ConnectTimeout "connect timed out"))
    by reflexivity.
  assert (Hm : supported "DELETE" = true) by reflexivity.
  assert (Hv : Validators.validate_order_params
                 (VStr "BTCUSDT") (VStr "BUY") (VStr "MARKET") (VStr "0.001") VNone
               = Return validated) by (vm_compute; reflexivity).
  assert (Ht : is_Timeout ConnectTimeout = true) by reflexivity.
  destruct (transport_failures_have_fixed_codes
              demo_client "DELETE" "/fapi/v1/order" None true demo_manager
              (VStr "BTCUSDT") (VStr "BUY") (VStr "MARKET") (VStr "0.001") VNone
              validated w ConnectTimeout "connect timed out" Hn) as [H1 H2].
  split; [repeat split; assumption|].
  split; [exact (H1 Hm) | exact (H2 Hv Ht)].
Defined.

Lemma failure_records :
  (forall m, failure_record (Orders.validation_failure m))
  /\ (forall m c, failure_record (Orders.api_failure m c))
  /\ (forall m, failure_record (Orders.unknown_failure m)).
Proof.
  unfold failure_record; repeat split; cbn; eauto.
Qed.

Lemma order_result_is_record (o : http_outcome) :
  Py.lookup (order_result o) "success" = Some (VBool true)
  \/ failure_record (order_result o).
Proof.
  destruct failure_records as (_ & Ha & Hu).
  unfold order_result.
  destruct (classify o) as [response | e].
  - destruct response; try (right; apply Hu).
    left. reflexivity.
  - destruct e; try (right; apply Hu). right; apply Ha.
Qed.

(** C8, as the code has it.  In [place_order] a [ValidationError] of the
    validator becomes the record with error type [VALIDATION_ERROR] and the
    validator's message; an exception raised after the validation, by the
    call of the client or by the formatting of its response, becomes a
    record [{success: False, error, error_type}]: with the message, the code
    and [API_ERROR] for an [ApiError], with [str(e)] and [UNKNOWN_ERROR] for
    any other exception.  In [cancel_order] and [get_open_orders] an
    [ApiError] of the client becomes the record [{success: False, error:
    <its message>}], which has no error type. *)
Theorem manager_handlers_convert_exceptions :
  forall (self : Orders.OrderManager)
         (symbol side order_type quantity price order_id : pyval) (w : world),
    (forall message,
        Validators.validate_order_params symbol side order_type quantity price
        = Raise (ValidationError message) ->
        Orders.place_order self symbol side order_type quantity price w
        = (Return [("success", VBool false); ("error", VStr message);
                   ("error_type", VStr "VALIDATION_ERROR")], w))
    /\ (forall validated e w',
           Validators.validate_order_params symbol side order_type quantity price
           = Return validated ->
           Orders.place_validated self validated w = (Raise e, w') ->
           exists r,
             Orders.place_order self symbol side order_type quantity price w
             = (Return r, w')
             /\ Py.lookup r "success" = Some (VBool false)
             /\ Py.lookup r "error"
                = Some (match e with
                        | BinanceAPIError _ _ message => message
                        | _ => VStr (exn_str e)
                        end)
             /\ Py.lookup r "error_code"
                = match e with
                  | BinanceAPIError _ error_code _ => Some error_code
                  | _ => None
                  end
             /\ Py.lookup r "error_type"
                = Some (VStr (match e with
                              | BinanceAPIError _ _ _ => "API_ERROR"
                              | _ => "UNKNOWN_ERROR"
                              end)))
    /\ (forall status code message w',
           Client.cancel_order (Orders.client self) symbol order_id w
           = (Raise (BinanceAPIError status code message), w') ->
           Orders.cancel_order self symbol order_id w
           = (Return [("success", VBool false); ("error", message)], w'))
    /\ (forall status code message w',
           Client.get_open_orders (Orders.client self) symbol w
           = (Raise (BinanceAPIError status code message), w') ->
           Orders.get_open_orders self symbol w
           = (Return [("success", VBool false); ("error", message)], w')).
Proof.
  intros self symbol side order_type quantity price order_id w.
  split; [|split; [|split]].
  - intros message Hv. unfold Orders.place_order. rewrite Hv. reflexivity.
  - intros validated e w' Hv Hb.
    unfold Orders.place_order. rewrite Hv.
    unfold try_except. rewrite Hb.
    destruct e; eexists; (split; [reflexivity|]); repeat split.
  - intros status code message w' Hc.
    unfold Orders.cancel_order, try_except, bind. rewrite Hc. reflexivity.
  - intros status code message w' Hc.
    unfold Orders.get_open_orders, try_except, bind. rewrite Hc. reflexivity.
Qed.

Lemma manager_handlers_convert_exceptions_witness :
  (Validators.validate_order_params (VStr "BTCUSDT") (VStr "HOLD") (VStr "MARKET")
                                    (VInt 1) VNone
   = Raise (ValidationError "Invalid side: HOLD. Must be BUY or SELL")
   /\ Validators.validate_order_params (VStr "BTCUSDT") (VStr "BUY") (VStr "MARKET")
                                       (VInt 1) VNone
      = Return [("symbol", VStr "BTCUSDT"); ("side", VStr "BUY");
                ("order_type", VStr "MARKET");
                ("quantity", VFloat (Dec.Finite false 1 0)); ("price", VNone)]
   /\ fst (Orders.place_validated
             demo_manager
             [("symbol", VStr "BTCUSDT"); ("side", VStr "BUY");
              ("order_type", VStr "MARKET");
              ("quantity", VFloat (Dec.Finite false 1 0)); ("price", VNone)]
             (demo_world (Response 500 (Some (VList [])))))
      = Raise (AttributeError "'list' object has no attribute 'get'")
   /\ fst (Client.cancel_order demo_client (VStr "BTCUSDT") (VInt 42)
                               (demo_world (Response 400 (Some (VDict [("code", VInt (-2011));
                                                                       ("msg", VStr "Unknown order sent.")])))))
      = Raise (BinanceAPIError 400 (VInt (-2011)) (VStr "Unknown order sent."))
   /\ fst (Client.get_open_orders demo_client VNone (demo_world (Response 503 None)))
      = Raise (BinanceAPIError 503 (VStr "INVALID_JSON")
                               (VStr "Invalid JSON response from server")))
  /\ fst (Orders.place_order demo_manager (VStr "BTCUSDT") (VStr "HOLD") (VStr "MARKET")
                             (VInt 1) VNone (demo_world (Response 200 None)))
     = Return [("success", VBool false);
               ("error", VStr "Invalid side: HOLD. Must be BUY or SELL");
               ("error_type", VStr "VALIDATION_ERROR")]
  /\ (exists r,
         fst (Orders.place_order demo_manager (VStr "BTCUSDT") (VStr "BUY") (VStr "MARKET")
                                 (VInt 1) VNone
                                 (demo_world (Response 500 (Some (VList [])))))
         = Return r
         /\ Py.lookup r "error_type" = Some (VStr "UNKNOWN_ERROR"))
  /\ fst (Orders.cancel_order demo_manager (VStr "BTCUSDT") (VInt 42)
                              (demo_world (Response 400 (Some (VDict [("code", VInt (-2011));
                                                                      ("msg", VStr "Unknown order sent.")])))))
     = Return [("success", VBool false); ("error", VStr "Unknown order sent.")]
  /\ fst (Orders.get_open_orders demo_manager VNone (demo_world (Response 503 None)))
     = Return [("success", VBool false);
               ("error", VStr "Invalid JSON response from server")].
Proof.
  assert (H1 : Validators.validate_order_params
                 (VStr "BTCUSDT") (VStr "HOLD") (VStr "MARKET") (VInt 1) VNone
               = Raise (ValidationError "Invalid side: HOLD. Must be BUY or SELL"))
    by (vm_compute; reflexivity).
  assert (H2 : Validators.validate_order_params
                 (VStr "BTCUSDT") (VStr "BUY") (VStr "MARKET") (VInt 1) VNone
               = Return [("symbol", VStr "BTCUSDT"); ("side", VStr "BUY");
                         ("order_type", VStr "MARKET");
                         ("quantity", VFloat (Dec.Finite false 1 0)); ("price", VNone)])
    by (vm_compute; reflexivity).
  destruct (Orders.place_validated
              demo_manager
              [("symbol", VStr "BTCUSDT"); ("side", VStr "BUY");
               ("order_type", VStr "MARKET");
               ("quantity", VFloat (Dec.Finite false 1 0)); ("price", VNone)]
              (demo_world (Response 500 (Some (VList []))))) as [b3 w3] eqn:E3.
  assert (H3 : b3 = Raise (AttributeError "'list' object has no attribute 'get'")).
  { apply (f_equal fst) in E3. vm_compute in E3. symmetry. exact E3. }
  subst b3.
  destruct (Client.cancel_order
              demo_client (VStr "BTCUSDT") (VInt 42)
              (demo_world (Response 400 (Some (VDict [("code", VInt (-2011));
                                                      ("msg", VStr "Unknown order sent.")])))))
    as [b4 w4] eqn:E4.
  assert (H4 : b4 = Raise (BinanceAPIError 400 (VInt (-2011))
                                           (VStr "Unknown order sent."))).
  { apply (f_equal fst) in E4. vm_compute in E4. symmetry. exact E4. }
  subst b4.
  destruct (Client.get_open_orders demo_client VNone (demo_world (Response 503 None)))
    as [b5 w5] eqn:E5.
  assert (H5 : b5 = Raise (BinanceAPIError 503 (VStr "INVALID_JSON")
                                           (VStr "Invalid JSON response from server"))).
  { apply (f_equal fst) in E5. vm_compute in E5. symmetry. exact E5. }
  subst b5.
  split; [repeat split; try assumption; reflexivity|].
  split.
  { rewrite (proj1 (manager_handlers_convert_exceptions
                      demo_manager (VStr "BTCUSDT") (VStr "HOLD") (VStr "MARKET")
                      (VInt 1) VNone VNone (demo_world (Response 200 None)))
                   _ H1).
    reflexivity. }
  split.
  { destruct (proj1 (proj2 (manager_handlers_convert_exceptions
                              demo_manager (VStr "BTCUSDT") (VStr "BUY") (VStr "MARKET")
                              (VInt 1) VNone VNone
                              (demo_world (Response 500 (Some (VList []))))))
                    _ _ _ H2 E3) as (r & Hr & _ & _ & _ & Ht).
    exists r. rewrite Hr. split; [reflexivity | exact Ht]. }
  split.
  { rewrite (proj1 (proj2 (proj2 (manager_handlers_convert_exceptions
                                    demo_manager (VStr "BTCUSDT") VNone VNone VNone VNone
                                    (VInt 42)
                                    (demo_world
                                       (Response 400
                                          (Some (VDict [("code", VInt (-2011));
                                                        ("msg", VStr "Unknown order sent.")])))))))
                   _ _ _ _ E4).
    reflexivity. }
  rewrite (proj2 (proj2 (proj2 (manager_handlers_convert_exceptions
                                  demo_manager VNone VNone VNone VNone VNone VNone
                                  (demo_world (Response 503 None)))))
                 _ _ _ _ E5).
  reflexivity.
Defined.

(** C8 as stated fails: when the exchange of [cancel_order] times out, the
    record that comes back is [{success: False, error}], with no error
    type. *)
Lemma cancel_order_is_not_uniform :
  fst (Orders.cancel_order demo_manager (VStr "BTCUSDT") (VInt 42)
                           (demo_world (Failure (RequestException ReadTimeout "timed out"))))
  = Return [("success", VBool false); ("error", VStr "Request timed out")]
  /\ ~ manager_never_raises.
Proof.
  split; [vm_compute; reflexivity|].
  intros (_ & Hc & _).
  destruct (Hc demo_manager (VStr "BTCUSDT") (VInt 42)
               (demo_world (Failure (RequestException ReadTimeout "timed out"))))
    as (r & Hr & Hs).
  vm_compute in Hr. injection Hr as <-.
  destruct Hs as [Hs | (_ & _ & [Ht | [Ht | Ht]])]; discriminate.
Qed.

(** C9. For a successful order result, [get_order_summary] joins the lines
    of the report; when [price] is the string ["0"] none of them is the
    Price line, when [avg_price] is the string ["0"] none of them is the
    Avg Price line, and when both are, the report is the ten fixed lines and
    the closing rule. *)
Theorem summary_omits_zero_prices :
  forall (order_result : dict),
    Py.truthy (Py.get order_result "success") = true ->
    Orders.get_order_summary order_result
    = Text.join Orders.newline (Orders.summary_lines order_result)
    /\ (Py.get order_result "price" = VStr "0" ->
        forall line, In line (Orders.summary_lines order_result) ->
                     Text.startswith line "Price:" = false)
    /\ (Py.get order_result "avg_price" = VStr "0" ->
        forall line, In line (Orders.summary_lines order_result) ->
                     Text.startswith line "Avg Price:" = false)
    /\ (Py.get order_result "price" = VStr "0" ->
        Py.get order_result "avg_price" = VStr "0" ->
        Orders.summary_lines order_result
        = [Orders.rule; "ORDER EXECUTED SUCCESSFULLY"; Orders.rule;
           "Order ID:     " ++ Py.str (Py.get order_result "order_id");
           "Symbol:       " ++ Py.str (Py.get order_result "symbol");
           "Side:         " ++ Py.str (Py.get order_result "side");
           "Type:         " ++ Py.str (Py.get order_result "type");
           "Status:       " ++ Py.str (Py.get order_result "status");
           "Quantity:     " ++ Py.str (Py.get order_result "quantity");
           "Executed:     " ++ Py.str (Py.get order_result "executed_qty");
           Orders.rule]).
Proof.
  intros order_result Hs.
  split.
  { unfold Orders.get_order_summary. rewrite Hs. reflexivity. }
  unfold Orders.summary_lines, Orders.field.
  split; [|split].
  - intros Hp line. rewrite Hp. cbn [Py.truthy Py.eq_str String.eqb Ascii.eqb
                                      Bool.eqb negb andb].
    destruct (Py.truthy (Py.get order_result "avg_price")
              && negb (Py.eq_str (Py.get order_result "avg_price") "0"))%bool;
      cbn [app In]; intros H;
      repeat (destruct H as [<- | H]; [reflexivity|]); destruct H.
  - intros Ha line. rewrite Ha. cbn [Py.truthy Py.eq_str String.eqb Ascii.eqb
                                      Bool.eqb negb andb].
    destruct (Py.truthy (Py.get order_result "price")
              && negb (Py.eq_str (Py.get order_result "price") "0"))%bool;
      cbn [app In]; intros H;
      repeat (destruct H as [<- | H]; [reflexivity|]); destruct H.
  - intros Hp Ha. rewrite Hp, Ha. reflexivity.
Qed.

Lemma summary_omits_zero_prices_witness :
  (Py.truthy (Py.get [("order_id", VInt 42); ("symbol", VStr "BTCUSDT");
                      ("price", VStr "0"); ("avg_price", VStr "0");
                      ("success", VBool true)] "success") = true
   /\ Py.get [("order_id", VInt 42); ("symbol", VStr "BTCUSDT");
              ("price", VStr "0"); ("avg_price", VStr "0");
              ("success", VBool true)] "price" = VStr "0"
   /\ Py.get [("order_id", VInt 42); ("symbol", VStr "BTCUSDT");
              ("price", VStr "0"); ("avg_price", VStr "0");
              ("success", VBool true)] "avg_price" = VStr "0")
  /\ Orders.summary_lines [("order_id", VInt 42); ("symbol", VStr "BTCUSDT");
                           ("price", VStr "0"); ("avg_price", VStr "0");
                           ("success", VBool true)]
     = [Orders.rule; "ORDER EXECUTED SUCCESSFULLY"; Orders.rule;
        "Order ID:     42"; "Symbol:       BTCUSDT"; "Side:         None";
        "Type:         None"; "Status:       None"; "Quantity:     None";
        "Executed:     None"; Orders.rule].
Proof.
  split; [repeat split; reflexivity|].
  exact (proj2 (proj2 (proj2 (summary_omits_zero_prices
                                [("order_id", VInt 42); ("symbol", VStr "BTCUSDT");
                                 ("price", VStr "0"); ("avg_price", VStr "0");
                                 ("success", VBool true)] eq_refl)))
               eq_refl eq_refl).
Defined.

(** C10. Every request that [place_order] of the manager sends is the
    signed POST of the validated symbol, side, type and quantity, with the
    price and [timeInForce] equal to ['GTC'] when the type is ['LIMIT'] and
    neither of them otherwise, and never with a [reduceOnly] parameter: the
    manager calls the client with the five validated fields and leaves
    [time_in_force] and [reduce_only] at their defaults. *)
Theorem manager_orders_are_gtc_without_reduce_only :
  forall (self : Orders.OrderManager) (symbol side order_type quantity price : pyval)
         (w : world) (req : http_request),
    In req (new_requests
              (Orders.place_order self symbol side order_type quantity price) w) ->
    Py.lookup (req_params req) "reduceOnly" = None
    /\ (Py.lookup (req_params req) "type" = Some (VStr "LIMIT")
        /\ Py.lookup (req_params req) "timeInForce" = Some (VStr "GTC")
        \/ Py.lookup (req_params req) "type" = Some (VStr "MARKET")
           /\ Py.lookup (req_params req) "timeInForce" = None)
    /\ exists validated,
        Validators.validate_order_params symbol side order_type quantity price
        = Return validated
        /\ req_params req
           = signed_params (Orders.client self) (order_params validated) (now w)
        /\ Orders.place_validated self validated w
           = bind (Client.place_order (Orders.client self)
                     (Py.get validated "symbol") (Py.get validated "side")
                     (Py.get validated "order_type") (Py.get validated "quantity")
                     (Py.get validated "price") VNone (VBool false))
                  (fun response =>
                     bind (lift (Orders._format_order_response response))
                          (fun result => ret (Py.set result "success" (VBool true))))
                  w.
Proof.
  intros self symbol side order_type quantity price w req Hin.
  unfold new_requests in Hin.
  destruct (Validators.validate_order_params symbol side order_type quantity price)
    as [validated | e] eqn:Hv.
  - pose proof (OrderFacts.place_order_run self _ _ _ _ _ _ w Hv) as Hrun.
    rewrite Hrun in Hin. cbn [snd sent] in Hin.
    rewrite TraceFacts.skipn_app_exact in Hin.
    destruct Hin as [<- | []].
    pose proof (ValidatorFacts.validate_order_params_returns _ _ _ _ _ _ Hv) as Hc.
    split; [|split].
    + destruct Hc; reflexivity.
    + destruct Hc; [right | left]; split; reflexivity.
    + exists validated. split; [reflexivity|]. split; [reflexivity|].
      unfold Orders.place_validated.
      destruct Hc;
        unfold bind at 1 2 3 4 5;
        cbn [lift getitem Py.get Py.get_or Py.lookup String.eqb Ascii.eqb Bool.eqb];
        unfold bind;
        match goal with
        | |- context [Client.place_order ?c ?a ?b ?d ?e ?f ?g ?h w] =>
            destruct (Client.place_order c a b d e f g h w) as [[response | ex] w']
        end; try reflexivity;
        destruct response; reflexivity.
  - exfalso. unfold Orders.place_order in Hin. rewrite Hv in Hin.
    destruct e; cbn in Hin; rewrite skipn_all in Hin; exact Hin.
Qed.

Lemma manager_orders_are_gtc_without_reduce_only_witness :
  In (order_request demo_manager
        [("symbol", VStr "BTCUSDT"); ("side", VStr "SELL");
         ("order_type", VStr "LIMIT"); ("quantity", VFloat (Dec.Finite false 5 (-1)));
         ("price", VFloat (Dec.Finite false 61000 0))]
        (demo_world (Response 200 (Some (VDict [("orderId", VInt 7)])))))
     (new_requests
        (Orders.place_order demo_manager (VStr " btcusdt") (VStr "Sell") (VStr "limit")
                            (VStr "0.5") (VInt 61000))
        (demo_world (Response 200 (Some (VDict [("orderId", VInt 7)])))))
  /\ Py.lookup
       (req_params
          (order_request demo_manager
             [("symbol", VStr "BTCUSDT"); ("side", VStr "SELL");
              ("order_type", VStr "LIMIT");
              ("quantity", VFloat (Dec.Finite false 5 (-1)));
              ("price", VFloat (Dec.Finite false 61000 0))]
             (demo_world (Response 200 (Some (VDict [("orderId", VInt 7)]))))))
       "reduceOnly" = None.
Proof.
  assert (H : In (order_request demo_manager
                    [("symbol", VStr "BTCUSDT"); ("side", VStr "SELL");
                     ("order_type", VStr "LIMIT");
                     ("quantity", VFloat (Dec.Finite false 5 (-1)));
                     ("price", VFloat (Dec.Finite false 61000 0))]
                    (demo_world (Response 200 (Some (VDict [("orderId", VInt 7)])))))
                 (new_requests
                    (Orders.place_order demo_manager (VStr " btcusdt") (VStr "Sell")
                                        (VStr "limit") (VStr "0.5") (VInt 61000))
                    (demo_world (Response 200 (Some (VDict [("orderId", VInt 7)])))))).
  { vm_compute. left. reflexivity. }
  split; [exact H|].
  exact (proj1 (manager_orders_are_gtc_without_reduce_only
                  demo_manager (VStr " btcusdt") (VStr "Sell") (VStr "limit")
                  (VStr "0.5") (VInt 61000) _ _ H)).
Defined.

(* ====================================================================== *)
(** ** Further properties of the validators *)
(* ====================================================================== *)

Module TextFacts.
Import Text.

Lemma upper_char_not_lower c : is_lower (upper_char c) = false.
Proof. destruct c as [[] [] [] [] [] [] [] []]; reflexivity. Qed.

Lemma upper_char_idem c : upper_char (upper_char c) = upper_char c.
Proof. destruct c as [[] [] [] [] [] [] [] []]; reflexivity. Qed.

Lemma upper_char_space c : is_space (upper_char c) = is_space c.
Proof. destruct c as [[] [] [] [] [] [] [] []]; reflexivity. Qed.

Lemma drop_clean l : clean (drop_while is_space l).
Proof.
  induction l as [|c r IH]; simpl; [exact I|].
  destruct (is_space c) eqn:E; [exact IH | exact E].
Qed.

Lemma drop_id l : clean l -> drop_while is_space l = l.
Proof. destruct l as [|c r]; simpl; [reflexivity|]. now intros ->. Qed.

Lemma drop_suffix l : exists pre, l = (pre ++ drop_while is_space l)%list.
Proof.
  induction l as [|c r [pre IH]]; simpl.
  - now exists [].
  - destruct (is_space c).
    + exists (c :: pre). simpl. now f_equal.
    + now exists [].
Qed.

Lemma drop_map_upper l :
  drop_while is_space (map upper_char l) = map upper_char (drop_while is_space l).
Proof.
  induction l as [|c r IH]; simpl; [reflexivity|].
  rewrite upper_char_space. destruct (is_space c); [exact IH | reflexivity].
Qed.

(** What [strip] returns starts with no whitespace. *)
Lemma strip_clean l : clean (strip_chars l).
Proof.
  unfold strip_chars.
  pose proof (drop_clean l) as Ha.
  destruct (drop_suffix (rev (drop_while is_space l))) as [pre Hp].
  set (a := drop_while is_space l) in *.
  set (b := drop_while is_space (rev a)) in *.
  assert (Hr : a = (rev b ++ rev pre)%list).
  { rewrite <- rev_app_distr, <- Hp. now rewrite rev_involutive. }
  destruct (rev b) as [|c t]; [exact I|].
  rewrite Hr in Ha. exact Ha.
Qed.

Lemma strip_chars_idem l : strip_chars (strip_chars l) = strip_chars l.
Proof.
  pose proof (strip_clean l) as Hc.
  unfold strip_chars at 1. rewrite (drop_id _ Hc).
  unfold strip_chars. rewrite rev_involutive.
  rewrite (drop_id _ (drop_clean _)). reflexivity.
Qed.

Lemma strip_map_upper l :
  strip_chars (map upper_char l) = map upper_char (strip_chars l).
Proof.
  unfold strip_chars.
  now rewrite drop_map_upper, <- map_rev, drop_map_upper, map_rev.
Qed.

Lemma chars_of_text l : chars (text l) = l.
Proof. apply list_ascii_of_string_of_list_ascii. Qed.

Lemma text_chars s : text (chars s) = s.
Proof. apply string_of_list_ascii_of_string. Qed.

(** [s.upper().strip()] as a list of characters. *)
Lemma chars_strip_upper s :
  chars (strip (upper s)) = strip_chars (map upper_char (chars s)).
Proof. unfold strip, upper. now rewrite !chars_of_text. Qed.

(** Normalising twice is normalising once. *)
Lemma strip_upper_idem s : strip (upper (strip (upper s))) = strip (upper s).
Proof.
  unfold strip at 1. unfold upper at 1. rewrite chars_of_text, chars_strip_upper.
  rewrite (strip_map_upper (strip_chars (map upper_char (chars s)))).
  rewrite strip_chars_idem, (strip_map_upper (chars s)), map_map.
  rewrite (map_ext _ upper_char upper_char_idem).
  rewrite <- strip_map_upper.
  unfold strip, upper. now rewrite chars_of_text.
Qed.

Lemma upper_upper s : upper (upper s) = upper s.
Proof.
  unfold upper. rewrite chars_of_text, map_map.
  now rewrite (map_ext _ upper_char upper_char_idem).
Qed.

Lemma strip_strip s : strip (strip s) = strip s.
Proof. unfold strip. now rewrite chars_of_text, strip_chars_idem. Qed.

Lemma strip_sublist l :
  forall c, In c (strip_chars l) -> In c l.
Proof.
  intros c H. unfold strip_chars in H. apply in_rev in H.
  destruct (drop_suffix (rev (drop_while is_space l))) as [pre1 H1].
  assert (H2 : In c (rev (drop_while is_space l))).
  { rewrite H1. apply in_or_app. now right. }
  apply in_rev in H2.
  destruct (drop_suffix l) as [pre2 H3]. rewrite H3.
  apply in_or_app. now right.
Qed.

Lemma strip_upper_normalised s : normalised (strip (upper s)).
Proof.
  split.
  - rewrite chars_strip_upper. apply Forall_forall. intros c Hc.
    apply strip_sublist in Hc. apply in_map_iff in Hc as (c0 & <- & _).
    apply upper_char_not_lower.
  - apply strip_strip.
Qed.

Lemma endswith_nonempty s suffix :
  suffix <> "" -> endswith s suffix = true -> s <> "".
Proof.
  intros Hn He ->. unfold endswith in He. simpl in He.
  destruct (rev (chars suffix)) as [|c r] eqn:E; [|discriminate].
  apply (f_equal (@rev ascii)) in E. rewrite rev_involutive in E. simpl in E.
  apply Hn. rewrite <- (text_chars suffix), E. reflexivity.
Qed.

Lemma nonempty_truthy s : s <> "" -> Py.truthy (VStr s) = true.
Proof.
  intros H. simpl. destruct (String.eqb s "") eqn:E; [|reflexivity].
  apply String.eqb_eq in E. contradiction.
Qed.

End TextFacts.

(** X1. What [validate_symbol] returns is a fixed point of it: validating a
    validated symbol gives it back. *)
Theorem validate_symbol_idempotent :
  forall (symbol v : pyval),
    Validators.validate_symbol symbol = Return v ->
    Validators.validate_symbol v = Return v.
Proof.
  intros symbol v H. unfold Validators.validate_symbol in H.
  destruct (negb (Py.truthy symbol)); [discriminate|].
  destruct symbol; cbn [Validators.upper_strip rbind] in H; try discriminate.
  destruct (Text.endswith (Text.strip (Text.upper s)) "USDT") eqn:E;
    cbn [negb] in H; [|discriminate].
  injection H as <-.
  unfold Validators.validate_symbol.
  rewrite (TextFacts.nonempty_truthy _
             (TextFacts.endswith_nonempty _ "USDT" ltac:(discriminate) E)).
  cbn [negb Validators.upper_strip rbind].
  rewrite TextFacts.strip_upper_idem, E. reflexivity.
Qed.

Lemma validate_symbol_idempotent_witness :
  Validators.validate_symbol (VStr "  ethusdt ") = Return (VStr "ETHUSDT")
  /\ Validators.validate_symbol (VStr "ETHUSDT") = Return (VStr "ETHUSDT").
Proof.
  assert (H : Validators.validate_symbol (VStr "  ethusdt ") = Return (VStr "ETHUSDT"))
    by (vm_compute; reflexivity).
  split; [exact H|].
  exact (validate_symbol_idempotent (VStr "  ethusdt ") (VStr "ETHUSDT") H).
Defined.

(** X2. A symbol that [validate_symbol] returns is a text with no lowercase
    ASCII letter and no whitespace at either end, it ends with [USDT], and
    it is the upper-cased and stripped form of the text that came in. *)
Theorem validate_symbol_returns_normalised :
  forall (symbol v : pyval),
    Validators.validate_symbol symbol = Return v ->
    exists s0 s,
      symbol = VStr s0 /\ v = VStr s
      /\ s = Text.strip (Text.upper s0)
      /\ normalised s
      /\ Text.endswith s "USDT" = true.
Proof.
  intros symbol v H. unfold Validators.validate_symbol in H.
  destruct (negb (Py.truthy symbol)); [discriminate|].
  destruct symbol; cbn [Validators.upper_strip rbind] in H; try discriminate.
  destruct (Text.endswith (Text.strip (Text.upper s)) "USDT") eqn:E;
    cbn [negb] in H; [|discriminate].
  injection H as <-.
  exists s, (Text.strip (Text.upper s)).
  repeat split; try reflexivity; try exact E;
    apply (TextFacts.strip_upper_normalised s).
Qed.

Lemma validate_symbol_returns_normalised_witness :
  Validators.validate_symbol (VStr " solUsdt") = Return (VStr "SOLUSDT")
  /\ exists s0 s,
      VStr " solUsdt" = VStr s0 /\ VStr "SOLUSDT" = VStr s
      /\ s = Text.strip (Text.upper s0)
      /\ normalised s
      /\ Text.endswith s "USDT" = true.
Proof.
  assert (H : Validators.validate_symbol (VStr " solUsdt") = Return (VStr "SOLUSDT"))
    by (vm_compute; reflexivity).
  split; [exact H|].
  exact (validate_symbol_returns_normalised (VStr " solUsdt") (VStr "SOLUSDT") H).
Defined.

Module ParsedFacts.
Import Validators.

(** A quantity that is returned is the float conversion of the decimal
    that [Decimal(str(quantity))] reads, and that decimal is above zero. *)
Lemma quantity_parsed x v :
  validate_quantity x = Return v ->
  exists d, Dec.of_string (Py.str x) = Some d /\ positive d /\ v = VFloat d.
Proof.
  unfold validate_quantity, positive.
  destruct (Py.is_none x); [discriminate|].
  destruct (Dec.of_string (Py.str x)) as [d|]; [|discriminate].
  destruct (Dec.le_zero d) as [[|]|] eqn:E; try discriminate.
  intros [= <-]. eauto.
Qed.

Lemma price_parsed x t v :
  validate_price x t = Return v ->
  (Py.eq_str t "LIMIT" = false /\ v = VNone)
  \/ (Py.eq_str t "LIMIT" = true
      /\ exists d, Dec.of_string (Py.str x) = Some d /\ positive d /\ v = VFloat d).
Proof.
  unfold validate_price, positive.
  destruct (Py.eq_str t "LIMIT"); [|intros [= <-]; auto].
  destruct (Py.is_none x); [discriminate|].
  destruct (Dec.of_string (Py.str x)) as [d|]; [|discriminate].
  destruct (Dec.le_zero d) as [[|]|] eqn:E; try discriminate.
  intros [= <-]. right. eauto.
Qed.

(** The fields of a returned record are what the five validators
    returned. *)
Lemma validated_fields symbol side order_type quantity price validated :
  validate_order_params symbol side order_type quantity price = Return validated ->
  map fst validated = ["symbol"; "side"; "order_type"; "quantity"; "price"]
  /\ validate_symbol symbol = Return (Py.get validated "symbol")
  /\ validate_side side = Return (Py.get validated "side")
  /\ validate_order_type order_type = Return (Py.get validated "order_type")
  /\ validate_quantity quantity = Return (Py.get validated "quantity")
  /\ validate_price price (Py.get validated "order_type")
     = Return (Py.get validated "price").
Proof.
  unfold validate_order_params, rbind.
  destruct (validate_symbol symbol) as [vs|]; [|discriminate].
  destruct (validate_side side) as [vd|]; [|discriminate].
  destruct (validate_order_type order_type) as [vt|]; [|discriminate].
  destruct (validate_quantity quantity) as [vq|]; [|discriminate].
  cbn [getitem Py.lookup String.eqb Ascii.eqb Bool.eqb].
  destruct (validate_price price vt) as [vp|] eqn:Ep; [|discriminate].
  intros [= <-]. cbn. repeat split. exact Ep.
Qed.

End ParsedFacts.

(** X3. The record that [validate_order_params] returns has the five keys
    symbol, side, order_type, quantity and price in this order; its symbol
    ends with [USDT] and its side is [BUY] or [SELL]; its quantity is
    [float(q)] for the decimal [q] that [Decimal(str(quantity))] reads, and
    [q] is above zero; its price is [None] for a [MARKET] order, and for a
    [LIMIT] order it is [float(p)] for the decimal [p] read from the price,
    with [p] above zero.  The test is on the decimals: what [float] makes of
    them is not stated. *)
Theorem validated_record_invariant :
  forall (symbol side order_type quantity price : pyval) (validated : dict),
    Validators.validate_order_params symbol side order_type quantity price
    = Return validated ->
    map fst validated = ["symbol"; "side"; "order_type"; "quantity"; "price"]
    /\ (exists s, Py.get validated "symbol" = VStr s /\ Text.endswith s "USDT" = true)
    /\ (Py.get validated "side" = VStr "BUY" \/ Py.get validated "side" = VStr "SELL")
    /\ (exists q, Dec.of_string (Py.str quantity) = Some q /\ positive q
                  /\ Py.get validated "quantity" = VFloat q)
    /\ (Py.get validated "order_type" = VStr "MARKET"
        /\ Py.get validated "price" = VNone
        \/ Py.get validated "order_type" = VStr "LIMIT"
           /\ exists p, Dec.of_string (Py.str price) = Some p /\ positive p
                        /\ Py.get validated "price" = VFloat p).
Proof.
  intros symbol side order_type quantity price validated H.
  destruct (ParsedFacts.validated_fields _ _ _ _ _ _ H)
    as (Hk & Hs & Hd & Ht & Hq & Hp).
  split; [exact Hk|].
  split.
  { apply ValidatorFacts.validate_symbol_returns in Hs as (s & Hs & He). eauto. }
  split; [exact (ValidatorFacts.validate_side_returns _ _ Hd)|].
  split.
  { apply ParsedFacts.quantity_parsed in Hq as (q & Hq1 & Hq2 & Hq3). eauto. }
  apply ValidatorFacts.validate_order_type_returns in Ht.
  apply ParsedFacts.price_parsed in Hp.
  destruct Ht as [Ht | Ht]; rewrite Ht in *;
    destruct Hp as [(Hl & Hv) | (Hl & p & Hp1 & Hp2 & Hp3)]; try discriminate Hl.
  - left. split; [reflexivity | exact Hv].
  - right. split; [reflexivity|]. eauto.
Qed.

Lemma validated_record_invariant_witness :
  Validators.validate_order_params (VStr "bnbusdt") (VStr "buy") (VStr "limit")
                                   (VStr "2") (VStr "310.5")
  = Return [("symbol", VStr "BNBUSDT"); ("side", VStr "BUY");
            ("order_type", VStr "LIMIT");
            ("quantity", VFloat (Dec.Finite false 2 0));
            ("price", VFloat (Dec.Finite false 3105 (-1)))]
  /\ map fst [("symbol", VStr "BNBUSDT"); ("side", VStr "BUY");
              ("order_type", VStr "LIMIT");
              ("quantity", VFloat (Dec.Finite false 2 0));
              ("price", VFloat (Dec.Finite false 3105 (-1)))]
     = ["symbol"; "side"; "order_type"; "quantity"; "price"].
Proof.
  assert (H : Validators.validate_order_params
                (VStr "bnbusdt") (VStr "buy") (VStr "limit") (VStr "2") (VStr "310.5")
              = Return [("symbol", VStr "BNBUSDT"); ("side", VStr "BUY");
                        ("order_type", VStr "LIMIT");
                        ("quantity", VFloat (Dec.Finite false 2 0));
                        ("price", VFloat (Dec.Finite false 3105 (-1)))])
    by (vm_compute; reflexivity).
  split; [exact H|].
  exact (proj1 (validated_record_invariant _ _ _ _ _ _ H)).
Defined.

(** X4. [validate_order_params] fails fast, in the order symbol, side,
    order type, quantity, price: the exception of the first field whose
    validator raises is the exception of the call, whatever the later fields
    hold. *)
Theorem validation_stops_at_first_failure :
  forall (symbol side order_type quantity price : pyval),
    (forall e, Validators.validate_symbol symbol = Raise e ->
               Validators.validate_order_params symbol side order_type quantity price
               = Raise e)
    /\ (forall v1 e,
           Validators.validate_symbol symbol = Return v1 ->
           Validators.validate_side side = Raise e ->
           Validators.validate_order_params symbol side order_type quantity price
           = Raise e)
    /\ (forall v1 v2 e,
           Validators.validate_symbol symbol = Return v1 ->
           Validators.validate_side side = Return v2 ->
           Validators.validate_order_type order_type = Raise e ->
           Validators.validate_order_params symbol side order_type quantity price
           = Raise e)
    /\ (forall v1 v2 v3 e,
           Validators.validate_symbol symbol = Return v1 ->
           Validators.validate_side side = Return v2 ->
           Validators.validate_order_type order_type = Return v3 ->
           Validators.validate_quantity quantity = Raise e ->
           Validators.validate_order_params symbol side order_type quantity price
           = Raise e)
    /\ (forall v1 v2 v3 v4 e,
           Validators.validate_symbol symbol = Return v1 ->
           Validators.validate_side side = Return v2 ->
           Validators.validate_order_type order_type = Return v3 ->
           Validators.validate_quantity quantity = Return v4 ->
           Validators.validate_price price v3 = Raise e ->
           Validators.validate_order_params symbol side order_type quantity price
           = Raise e).
Proof.
  intros symbol side order_type quantity price.
  unfold Validators.validate_order_params.
  repeat split; intros.
  - now rewrite H.
  - now rewrite H, H0.
  - now rewrite H, H0, H1.
  - now rewrite H, H0, H1, H2.
  - rewrite H, H0, H1, H2. cbn. now rewrite H3.
Qed.

Lemma validation_stops_at_first_failure_witness :
  (Validators.validate_symbol (VStr "BTCEUR")
   = Raise (ValidationError "Invalid symbol format: BTCEUR. Must end with USDT")
   /\ Validators.validate_symbol (VStr "BTCUSDT") = Return (VStr "BTCUSDT")
   /\ Validators.validate_side (VStr "HOLD")
      = Raise (ValidationError "Invalid side: HOLD. Must be BUY or SELL")
   /\ Validators.validate_side (VStr "BUY") = Return (VStr "BUY")
   /\ Validators.validate_order_type (VStr "STOP")
      = Raise (ValidationError "Invalid order type: STOP. Must be MARKET or LIMIT")
   /\ Validators.validate_order_type (VStr "LIMIT") = Return (VStr "LIMIT")
   /\ Validators.validate_quantity (VInt 0)
      = Raise (ValidationError "Quantity must be greater than 0")
   /\ Validators.validate_quantity (VInt 1) = Return (VFloat (Dec.Finite false 1 0))
   /\ Validators.validate_price (VStr "abc") (VStr "LIMIT")
      = Raise (ValidationError "Invalid price: abc"))
  /\ Validators.validate_order_params (VStr "BTCEUR") (VStr "HOLD") (VStr "STOP")
                                      (VInt 0) (VStr "abc")
     = Raise (ValidationError "Invalid symbol format: BTCEUR. Must end with USDT")
  /\ Validators.validate_order_params (VStr "BTCUSDT") (VStr "HOLD") (VStr "STOP")
                                      (VInt 0) (VStr "abc")
     = Raise (ValidationError "Invalid side: HOLD. Must be BUY or SELL")
  /\ Validators.validate_order_params (VStr "BTCUSDT") (VStr "BUY") (VStr "STOP")
                                      (VInt 0) (VStr "abc")
     = Raise (ValidationError "Invalid order type: STOP. Must be MARKET or LIMIT")
  /\ Validators.validate_order_params (VStr "BTCUSDT") (VStr "BUY") (VStr "LIMIT")
                                      (VInt 0) (VStr "abc")
     = Raise (ValidationError "Quantity must be greater than 0")
  /\ Validators.validate_order_params (VStr "BTCUSDT") (VStr "BUY") (VStr "LIMIT")
                                      (VInt 1) (VStr "abc")
     = Raise (ValidationError "Invalid price: abc").
Proof.
  assert (E1 : Validators.validate_symbol (VStr "BTCEUR")
               = Raise (ValidationError "Invalid symbol format: BTCEUR. Must end with USDT"))
    by (vm_compute; reflexivity).
  assert (R1 : Validators.validate_symbol (VStr "BTCUSDT") = Return (VStr "BTCUSDT"))
    by (vm_compute; reflexivity).
  assert (E2 : Validators.validate_side (VStr "HOLD")
               = Raise (ValidationError "Invalid side: HOLD. Must be BUY or SELL"))
    by (vm_compute; reflexivity).
  assert (R2 : Validators.validate_side (VStr "BUY") = Return (VStr "BUY"))
    by (vm_compute; reflexivity).
  assert (E3 : Validators.validate_order_type (VStr "STOP")
               = Raise (ValidationError "Invalid order type: STOP. Must be MARKET or LIMIT"))
    by (vm_compute; reflexivity).
  assert (R3 : Validators.validate_order_type (VStr "LIMIT") = Return (VStr "LIMIT"))
    by (vm_compute; reflexivity).
  assert (E4 : Validators.validate_quantity (VInt 0)
               = Raise (ValidationError "Quantity must be greater than 0"))
    by (vm_compute; reflexivity).
  assert (R4 : Validators.validate_quantity (VInt 1)
               = Return (VFloat (Dec.Finite false 1 0)))
    by (vm_compute; reflexivity).
  assert (E5 : Validators.validate_price (VStr "abc") (VStr "LIMIT")
               = Raise (ValidationError "Invalid price: abc"))
    by (vm_compute; reflexivity).
  split; [repeat split; assumption|].
  split.
  { exact (proj1 (validation_stops_at_first_failure
                    (VStr "BTCEUR") (VStr "HOLD") (VStr "STOP") (VInt 0) (VStr "abc"))
                 _ E1). }
  split.
  { exact (proj1 (proj2 (validation_stops_at_first_failure
                           (VStr "BTCUSDT") (VStr "HOLD") (VStr "STOP") (VInt 0)
                           (VStr "abc")))
                 _ _ R1 E2). }
  split.
  { exact (proj1 (proj2 (proj2 (validation_stops_at_first_failure
                                  (VStr "BTCUSDT") (VStr "BUY") (VStr "STOP") (VInt 0)
                                  (VStr "abc"))))
                 _ _ _ R1 R2 E3). }
  split.
  { exact (proj1 (proj2 (proj2 (proj2 (validation_stops_at_first_failure
                                         (VStr "BTCUSDT") (VStr "BUY") (VStr "LIMIT")
                                         (VInt 0) (VStr "abc")))))
                 _ _ _ _ R1 R2 R3 E4). }
  exact (proj2 (proj2 (proj2 (proj2 (validation_stops_at_first_failure
                                       (VStr "BTCUSDT") (VStr "BUY") (VStr "LIMIT")
                                       (VInt 1) (VStr "abc")))))
               _ _ _ _ _ R1 R2 R3 R4 E5).
Defined.

(** X5. For an order type that validates to [MARKET] the price is never
    looked at: [validate_order_params] gives the same outcome for every
    price, a text that is no number or a NaN included, and a record it
    returns has [None] for price. *)
Theorem market_orders_ignore_price :
  forall (symbol side order_type quantity price price' : pyval),
    Validators.validate_order_type order_type = Return (VStr "MARKET") ->
    Validators.validate_order_params symbol side order_type quantity price
    = Validators.validate_order_params symbol side order_type quantity price'
    /\ (forall validated,
           Validators.validate_order_params symbol side order_type quantity price
           = Return validated ->
           Py.get validated "price" = VNone).
Proof.
  intros symbol side order_type quantity price price' Ht.
  unfold Validators.validate_order_params. rewrite Ht.
  destruct (Validators.validate_symbol symbol) as [v1|e1]; cbn [rbind];
    [|split; [reflexivity | discriminate]].
  destruct (Validators.validate_side side) as [v2|e2]; cbn [rbind];
    [|split; [reflexivity | discriminate]].
  destruct (Validators.validate_quantity quantity) as [v4|e4]; cbn [rbind];
    [|split; [reflexivity | discriminate]].
  cbn. split; [reflexivity|]. intros validated [= <-]. reflexivity.
Qed.

Lemma market_orders_ignore_price_witness :
  (Validators.validate_order_type (VStr " market ") = Return (VStr "MARKET")
   /\ Validators.validate_order_params (VStr "BTCUSDT") (VStr "BUY") (VStr " market ")
                                       (VStr "0.01") (VStr "NaN")
      = Return [("symbol", VStr "BTCUSDT"); ("side", VStr "BUY");
                ("order_type", VStr "MARKET");
                ("quantity", VFloat (Dec.Finite false 1 (-2))); ("price", VNone)])
  /\ Validators.validate_order_params (VStr "BTCUSDT") (VStr "BUY") (VStr " market ")
                                      (VStr "0.01") (VStr "NaN")
     = Validators.validate_order_params (VStr "BTCUSDT") (VStr "BUY") (VStr " market ")
                                        (VStr "0.01") VNone
  /\ Py.get [("symbol", VStr "BTCUSDT"); ("side", VStr "BUY");
             ("order_type", VStr "MARKET");
             ("quantity", VFloat (Dec.Finite false 1 (-2))); ("price", VNone)] "price"
     = VNone.
Proof.
  assert (H : Validators.validate_order_type (VStr " market ") = Return (VStr "MARKET"))
    by (vm_compute; reflexivity).
  assert (Hv : Validators.validate_order_params
                 (VStr "BTCUSDT") (VStr "BUY") (VStr " market ") (VStr "0.01") (VStr "NaN")
               = Return [("symbol", VStr "BTCUSDT"); ("side", VStr "BUY");
                         ("order_type", VStr "MARKET");
                         ("quantity", VFloat (Dec.Finite false 1 (-2)));
                         ("price", VNone)]) by (vm_compute; reflexivity).
  destruct (market_orders_ignore_price
              (VStr "BTCUSDT") (VStr "BUY") (VStr " market ") (VStr "0.01")
              (VStr "NaN") VNone H) as [H1 H2].
  split; [split; assumption|].
  split; [exact H1 | exact (H2 _ Hv)].
Defined.

(** X6. The price of a [LIMIT] order is checked the way a quantity is: on
    every value, [validate_price] with ['LIMIT'] and [validate_quantity]
    both return the same float, or both raise [ValidationError], or both
    raise [decimal.InvalidOperation]. *)
Theorem limit_price_is_checked_like_quantity :
  forall (x : pyval),
    match Validators.validate_quantity x, Validators.validate_price x (VStr "LIMIT") with
    | Return q, Return p => q = p
    | Raise (ValidationError _), Raise (ValidationError _) => True
    | Raise InvalidOperation, Raise InvalidOperation => True
    | _, _ => False
    end.
Proof.
  intros x. unfold Validators.validate_quantity, Validators.validate_price.
  cbn [Py.eq_str String.eqb Ascii.eqb Bool.eqb].
  destruct (Py.is_none x); [exact I|].
  destruct (Dec.of_string (Py.str x)) as [d|]; [|exact I].
  destruct (Dec.le_zero d) as [[|]|]; [exact I | reflexivity | exact I].
Qed.

Module CaseFacts.
Import Text.

Lemma upper_empty s : String.eqb (upper s) "" = String.eqb s "".
Proof. destruct s; reflexivity. Qed.

Lemma truthy_upper s : Py.truthy (VStr (upper s)) = Py.truthy (VStr s).
Proof. simpl. now rewrite upper_empty. Qed.

Lemma upper_strip_upper s :
  Validators.upper_strip (VStr (upper s)) = Validators.upper_strip (VStr s).
Proof. simpl. now rewrite TextFacts.upper_upper. Qed.

End CaseFacts.

(** X7. [validate_side] and [validate_order_type] do not look at the case
    of the letters: a text and its upper-cased form have the same outcome,
    error message included; what they return is [BUY] or [SELL], and
    [MARKET] or [LIMIT]. *)
Theorem side_and_type_ignore_case :
  forall (s : string),
    Validators.validate_side (VStr (Text.upper s)) = Validators.validate_side (VStr s)
    /\ Validators.validate_order_type (VStr (Text.upper s))
       = Validators.validate_order_type (VStr s)
    /\ (Validators.validate_side (VStr s) = Return (VStr "BUY")
        \/ Validators.validate_side (VStr s) = Return (VStr "SELL")
        \/ exists m, Validators.validate_side (VStr s) = Raise (ValidationError m))
    /\ (Validators.validate_order_type (VStr s) = Return (VStr "MARKET")
        \/ Validators.validate_order_type (VStr s) = Return (VStr "LIMIT")
        \/ exists m, Validators.validate_order_type (VStr s) = Raise (ValidationError m)).
Proof.
  intros s.
  split; [|split; [|split]].
  - unfold Validators.validate_side.
    now rewrite CaseFacts.truthy_upper, CaseFacts.upper_strip_upper.
  - unfold Validators.validate_order_type.
    now rewrite CaseFacts.truthy_upper, CaseFacts.upper_strip_upper.
  - destruct (Validators.validate_side (VStr s)) as [v|e] eqn:E.
    + apply ValidatorFacts.validate_side_returns in E as [-> | ->]; auto.
    + right; right. unfold Validators.validate_side in E.
      destruct (negb (Py.truthy (VStr s))); [injection E as <-; eauto|].
      cbn [Validators.upper_strip rbind] in E.
      destruct (negb (Validators.mem _ Validators.VALID_SIDES));
        [injection E as <-; eauto | discriminate].
  - destruct (Validators.validate_order_type (VStr s)) as [v|e] eqn:E.
    + apply ValidatorFacts.validate_order_type_returns in E as [-> | ->]; auto.
    + right; right. unfold Validators.validate_order_type in E.
      destruct (negb (Py.truthy (VStr s))); [injection E as <-; eauto|].
      cbn [Validators.upper_strip rbind] in E.
      destruct (negb (Validators.mem _ Validators.VALID_ORDER_TYPES));
        [injection E as <-; eauto | discriminate].
Qed.

(* ====================================================================== *)
(** ** Further properties of the client *)
(* ====================================================================== *)

(** X8. A method other than GET, POST and DELETE makes [_make_request]
    raise [ValueError] naming the method; nothing is sent, though with
    [signed] the clock has been read by then. *)
Theorem unsupported_method_raises_value_error :
  forall (self : BinanceClient) (method endpoint : string) (params : option dict)
         (signed : bool) (w : world),
    supported method = false ->
    fst (_make_request self method endpoint params signed w)
    = Raise (ValueError ("Unsupported HTTP method: " ++ method))
    /\ new_requests (_make_request self method endpoint params signed) w = []
    /\ clock_reads (snd (_make_request self method endpoint params signed w))
       = if signed then S (clock_reads w) else clock_reads w.
Proof.
  intros self method endpoint params signed w H.
  unfold new_requests. unfold supported in H.
  destruct (String.eqb method "GET") eqn:E1; [discriminate|].
  destruct (String.eqb method "POST") eqn:E2; [discriminate|].
  destruct (String.eqb method "DELETE") eqn:E3; [discriminate|].
  unfold _make_request. rewrite E1, E2, E3.
  destruct signed; cbn; rewrite skipn_all; repeat split.
Qed.

Lemma unsupported_method_raises_value_error_witness :
  supported "PUT" = false
  /\ fst (_make_request demo_client "PUT" "/fapi/v1/order" None true
                        (demo_world (Response 200 (Some (VDict [])))))
     = Raise (ValueError "Unsupported HTTP method: PUT").
Proof.
  assert (H : supported "PUT" = false) by reflexivity.
  split; [exact H|].
  exact (proj1 (unsupported_method_raises_value_error
                  demo_client "PUT" "/fapi/v1/order" None true
                  (demo_world (Response 200 (Some (VDict [])))) H)).
Defined.

(** X9. One call of [_make_request] sends at most one request: there is no
    retry.  A request it sends goes to the base URL followed by the
    endpoint, with the API key in the [X-MBX-APIKEY] header whether the
    call is signed or not, with a timeout of 30 seconds, and with its
    parameters in the body for POST and in the query for GET and DELETE. *)
Theorem every_request_carries_api_key :
  forall (self : BinanceClient) (method endpoint : string) (params : option dict)
         (signed : bool) (w : world),
    (List.length (new_requests (_make_request self method endpoint params signed) w)
     <= 1)%nat
    /\ forall req,
        In req (new_requests (_make_request self method endpoint params signed) w) ->
        req_method req = method
        /\ req_url req = "https://testnet.binancefuture.com" ++ endpoint
        /\ req_headers req
           = [("X-MBX-APIKEY", api_key self);
              ("Content-Type", "application/x-www-form-urlencoded")]
        /\ req_timeout req = 30
        /\ req_placement req = (if String.eqb method "POST" then InBody else InQuery).
Proof.
  intros self method endpoint params signed w. unfold new_requests.
  destruct (supported method) eqn:Hm.
  - rewrite TraceFacts.make_request_run by exact Hm.
    cbn [snd sent]. rewrite TraceFacts.skipn_app_exact.
    split; [simpl; lia|].
    intros req [<- | []]. repeat split.
  - rewrite unsupported_sends_nothing by exact Hm. rewrite skipn_all.
    split; [simpl; lia | intros req []].
Qed.

(** X10. A response whose status is not 200 and whose body is a JSON object
    becomes an [ApiError] with that status, the [code] of the body or
    ['UNKNOWN'] when the key is missing, and the [msg] of the body or
    ['Unknown error'] when the key is missing. *)
Theorem error_status_becomes_api_error :
  forall (self : BinanceClient) (method endpoint : string) (params : option dict)
         (signed : bool) (w : world) (status : Z) (body : dict),
    supported method = true ->
    status <> 200 ->
    network w (List.length (sent w)) = Response status (Some (VDict body)) ->
    fst (_make_request self method endpoint params signed w)
    = Raise (BinanceAPIError
               status
               (match Py.lookup body "code" with Some c => c | None => VStr "UNKNOWN" end)
               (match Py.lookup body "msg" with
                | Some m => m
                | None => VStr "Unknown error"
                end)).
Proof.
  intros self method endpoint params signed w status body Hm Hs Hn.
  rewrite TraceFacts.make_request_run by exact Hm.
  cbn [fst]. rewrite Hn. cbn [classify].
  destruct (Z.eqb status 200) eqn:E; [apply Z.eqb_eq in E; contradiction|].
  reflexivity.
Qed.

Lemma error_status_becomes_api_error_witness :
  (supported "GET" = true
   /\ 418 <> 200
   /\ network (demo_world (Response 418 (Some (VDict [("msg", VStr "teapot")]))))
              (List.length (sent (demo_world
                                    (Response 418 (Some (VDict [("msg", VStr "teapot")]))))))
      = Response 418 (Some (VDict [("msg", VStr "teapot")])))
  /\ fst (_make_request demo_client "GET" "/fapi/v1/time" None false
                        (demo_world (Response 418 (Some (VDict [("msg", VStr "teapot")])))))
     = Raise (BinanceAPIError 418 (VStr "UNKNOWN") (VStr "teapot")).
Proof.
  assert (Hm : supported "GET" = true) by reflexivity.
  assert (Hs : 418 <> 200) by lia.
  assert (Hn : network (demo_world (Response 418 (Some (VDict [("msg", VStr "teapot")]))))
                       (List.length
                          (sent (demo_world
                                   (Response 418 (Some (VDict [("msg", VStr "teapot")]))))))
               = Response 418 (Some (VDict [("msg", VStr "teapot")])))
    by reflexivity.
  split; [repeat split; assumption|].
  exact (error_status_becomes_api_error
           demo_client "GET" "/fapi/v1/time" None false _ 418 [("msg", VStr "teapot")]
           Hm Hs Hn).
Defined.

(** X11. A response whose body is not JSON becomes an [ApiError] with code
    ['INVALID_JSON'] and the status of the response, for every status, 200
    included: the body is decoded before the status is looked at. *)
Theorem invalid_json_wins_over_status :
  forall (self : BinanceClient) (method endpoint : string) (params : option dict)
         (signed : bool) (w : world) (status : Z),
    supported method = true ->
    network w (List.length (sent w)) = Response status None ->
    fst (_make_request self method endpoint params signed w)
    = Raise (BinanceAPIError status (VStr "INVALID_JSON")
                             (VStr "Invalid JSON response from server")).
Proof.
  intros self method endpoint params signed w status Hm Hn.
  rewrite TraceFacts.make_request_run by exact Hm.
  cbn [fst]. now rewrite Hn.
Qed.

Lemma invalid_json_wins_over_status_witness :
  (supported "POST" = true
   /\ network (demo_world (Response 200 None))
              (List.length (sent (demo_world (Response 200 None))))
      = Response 200 None)
  /\ fst (_make_request demo_client "POST" "/fapi/v1/order" None true
                        (demo_world (Response 200 None)))
     = Raise (BinanceAPIError 200 (VStr "INVALID_JSON")
                              (VStr "Invalid JSON response from server")).
Proof.
  assert (Hm : supported "POST" = true) by reflexivity.
  assert (Hn : network (demo_world (Response 200 None))
                       (List.length (sent (demo_world (Response 200 None))))
               = Response 200 None) by reflexivity.
  split; [split; assumption|].
  exact (invalid_json_wins_over_status
           demo_client "POST" "/fapi/v1/order" None true _ 200 Hm Hn).
Defined.

(** X12. A response with status 200 and a JSON body gives that body back as
    it is, whatever its shape: an object, a list, a number or [null]. *)
Theorem success_returns_body_verbatim :
  forall (self : BinanceClient) (method endpoint : string) (params : option dict)
         (signed : bool) (w : world) (data : pyval),
    supported method = true ->
    network w (List.length (sent w)) = Response 200 (Some data) ->
    fst (_make_request self method endpoint params signed w) = Return data.
Proof.
  intros self method endpoint params signed w data Hm Hn.
  rewrite TraceFacts.make_request_run by exact Hm.
  cbn [fst]. now rewrite Hn.
Qed.

Lemma success_returns_body_verbatim_witness :
  (supported "GET" = true
   /\ network (demo_world (Response 200 (Some (VList [VNone; VInt 3]))))
              (List.length (sent (demo_world (Response 200 (Some (VList [VNone; VInt 3]))))))
      = Response 200 (Some (VList [VNone; VInt 3])))
  /\ fst (_make_request demo_client "GET" "/fapi/v1/openOrders" None true
                        (demo_world (Response 200 (Some (VList [VNone; VInt 3])))))
     = Return (VList [VNone; VInt 3]).
Proof.
  assert (Hm : supported "GET" = true) by reflexivity.
  assert (Hn : network (demo_world (Response 200 (Some (VList [VNone; VInt 3]))))
                       (List.length
                          (sent (demo_world (Response 200 (Some (VList [VNone; VInt 3]))))))
               = Response 200 (Some (VList [VNone; VInt 3]))) by reflexivity.
  split; [split; assumption|].
  exact (success_returns_body_verbatim
           demo_client "GET" "/fapi/v1/openOrders" None true _ _ Hm Hn).
Defined.

(** X13. A response whose status is not 200 and whose JSON body is not an
    object makes [_make_request] raise [AttributeError], not an
    [ApiError]: the body is asked for its [code] with [.get]. *)
Theorem non_object_error_body_raises_attribute_error :
  forall (self : BinanceClient) (method endpoint : string) (params : option dict)
         (signed : bool) (w : world) (status : Z) (data : pyval),
    supported method = true ->
    status <> 200 ->
    (forall body, data <> VDict body) ->
    network w (List.length (sent w)) = Response status (Some data) ->
    fst (_make_request self method endpoint params signed w)
    = Raise (AttributeError
               ("'" ++ type_name data ++ "' object has no attribute 'get'")).
Proof.
  intros self method endpoint params signed w status data Hm Hs Hd Hn.
  rewrite TraceFacts.make_request_run by exact Hm.
  cbn [fst]. rewrite Hn. cbn [classify].
  destruct (Z.eqb status 200) eqn:E; [apply Z.eqb_eq in E; contradiction|].
  destruct data; try reflexivity.
  exfalso. exact (Hd _ eq_refl).
Qed.

Lemma non_object_error_body_raises_attribute_error_witness :
  (supported "DELETE" = true
   /\ 502 <> 200
   /\ (forall body, VStr "Bad Gateway" <> VDict body)
   /\ network (demo_world (Response 502 (Some (VStr "Bad Gateway"))))
              (List.length (sent (demo_world (Response 502 (Some (VStr "Bad Gateway"))))))
      = Response 502 (Some (VStr "Bad Gateway")))
  /\ fst (_make_request demo_client "DELETE" "/fapi/v1/order" None true
                        (demo_world (Response 502 (Some (VStr "Bad Gateway")))))
     = Raise (AttributeError "'str' object has no attribute 'get'").
Proof.
  assert (Hm : supported "DELETE" = true) by reflexivity.
  assert (Hs : 502 <> 200) by lia.
  assert (Hd : forall body, VStr "Bad Gateway" <> VDict body) by discriminate.
  assert (Hn : network (demo_world (Response 502 (Some (VStr "Bad Gateway"))))
                       (List.length
                          (sent (demo_world (Response 502 (Some (VStr "Bad Gateway"))))))
               = Response 502 (Some (VStr "Bad Gateway"))) by reflexivity.
  split; [repeat split; assumption|].
  exact (non_object_error_body_raises_attribute_error
           demo_client "DELETE" "/fapi/v1/order" None true _ 502 (VStr "Bad Gateway")
           Hm Hs Hd Hn).
Defined.

Lemma every_request_carries_api_key_witness :
  In (request_of demo_client "GET" "/fapi/v1/time" [])
     (new_requests (_make_request demo_client "GET" "/fapi/v1/time" None false)
                   (demo_world (Response 200 (Some (VDict [])))))
  /\ req_headers (request_of demo_client "GET" "/fapi/v1/time" [])
     = [("X-MBX-APIKEY", "key");
        ("Content-Type", "application/x-www-form-urlencoded")].
Proof.
  assert (H : In (request_of demo_client "GET" "/fapi/v1/time" [])
                 (new_requests (_make_request demo_client "GET" "/fapi/v1/time" None false)
                               (demo_world (Response 200 (Some (VDict [])))))).
  { vm_compute. left. reflexivity. }
  split; [exact H|].
  exact (proj1 (proj2 (proj2 (proj2 (every_request_carries_api_key
                                       demo_client "GET" "/fapi/v1/time" None false
                                       (demo_world (Response 200 (Some (VDict [])))))
                                    _ H)))).
Defined.

(** X14. The three unsigned operations send one GET each and leave the
    clock alone: [get_server_time] and [get_exchange_info] with no
    parameter, [get_symbol_price] with the symbol as its only parameter;
    none carries a timestamp or a signature. *)
Theorem unsigned_operations_send_plain_requests :
  forall (self : BinanceClient) (symbol : pyval) (w : world),
    snd (get_server_time self w)
    = World (clock w) (clock_reads w) (network w)
            (sent w ++ [request_of self "GET" "/fapi/v1/time" []])
    /\ snd (get_exchange_info self w)
       = World (clock w) (clock_reads w) (network w)
               (sent w ++ [request_of self "GET" "/fapi/v1/exchangeInfo" []])
    /\ snd (get_symbol_price self symbol w)
       = World (clock w) (clock_reads w) (network w)
               (sent w ++ [request_of self "GET" "/fapi/v1/ticker/price"
                                      [("symbol", symbol)]]).
Proof.
  intros self symbol w.
  unfold get_server_time, get_exchange_info, get_symbol_price.
  rewrite !TraceFacts.make_request_run by reflexivity.
  repeat split.
Qed.

(** X15. [cancel_order] of the client sends one signed DELETE to
    [/fapi/v1/order] whose query holds, in this order, symbol, orderId,
    timestamp and the signature of the three before it; the result is the
    classified outcome of that exchange. *)
Theorem cancel_order_sends_signed_delete :
  forall (self : BinanceClient) (symbol order_id : pyval) (w : world),
    let stamped := [("symbol", symbol); ("orderId", order_id);
                    ("timestamp", VInt (now w))] in
    Client.cancel_order self symbol order_id w
    = (classify (network w (List.length (sent w))),
       World (clock w) (S (clock_reads w)) (network w)
             (sent w ++ [Request "DELETE"
                                 "https://testnet.binancefuture.com/fapi/v1/order"
                                 (session_headers self)
                                 (stamped ++ [("signature",
                                               VStr (_generate_signature self stamped))])%list
                                 InQuery 30])).
Proof.
  intros self symbol order_id w stamped.
  unfold Client.cancel_order.
  rewrite TraceFacts.make_request_run by reflexivity.
  reflexivity.
Qed.

(** X16. [get_open_orders] of the client filters by symbol only when the
    symbol is truthy: with [None] or the empty text the signed GET carries
    the timestamp and the signature alone, otherwise the symbol comes
    first. *)
Theorem open_orders_filter_is_optional :
  forall (self : BinanceClient) (symbol : pyval) (w : world) (req : http_request),
    In req (new_requests (Client.get_open_orders self symbol) w) ->
    let filter := if Py.truthy symbol then [("symbol", symbol)] else [] in
    let stamped := (filter ++ [("timestamp", VInt (now w))])%list in
    req_method req = "GET"
    /\ req_url req = "https://testnet.binancefuture.com/fapi/v1/openOrders"
    /\ req_placement req = InQuery
    /\ req_params req
       = (stamped ++ [("signature", VStr (_generate_signature self stamped))])%list.
Proof.
  intros self symbol w req Hin filter stamped.
  unfold new_requests, Client.get_open_orders in Hin.
  rewrite TraceFacts.make_request_run in Hin by reflexivity.
  cbn [snd sent] in Hin. rewrite TraceFacts.skipn_app_exact in Hin.
  destruct Hin as [<- | []].
  subst stamped filter.
  destruct (Py.truthy symbol); repeat split.
Qed.

Lemma open_orders_filter_is_optional_witness :
  In (Request "GET" "https://testnet.binancefuture.com/fapi/v1/openOrders"
              (session_headers demo_client)
              [("timestamp", VInt 1700000000000);
               ("signature",
                VStr "d615d05216c634afd48df5e1fc52c0d95b77892f19502e1b619f391bc9d68205")]
              InQuery 30)
     (new_requests (Client.get_open_orders demo_client (VStr ""))
                   (demo_world (Response 200 (Some (VList [])))))
  /\ req_method
       (Request "GET" "https://testnet.binancefuture.com/fapi/v1/openOrders"
                (session_headers demo_client)
                [("timestamp", VInt 1700000000000);
                 ("signature",
                  VStr "d615d05216c634afd48df5e1fc52c0d95b77892f19502e1b619f391bc9d68205")]
                InQuery 30)
     = "GET".
Proof.
  assert (H : In (Request "GET" "https://testnet.binancefuture.com/fapi/v1/openOrders"
                          (session_headers demo_client)
                          [("timestamp", VInt 1700000000000);
                           ("signature",
                            VStr "d615d05216c634afd48df5e1fc52c0d95b77892f19502e1b619f391bc9d68205")]
                          InQuery 30)
                 (new_requests (Client.get_open_orders demo_client (VStr ""))
                               (demo_world (Response 200 (Some (VList [])))))).
  { vm_compute. left. reflexivity. }
  split; [exact H|].
  exact (proj1 (open_orders_filter_is_optional
                  demo_client (VStr "") (demo_world (Response 200 (Some (VList []))))
                  _ H)).
Defined.

(** X17. [test_connectivity] never raises: it sends one unsigned GET to
    [/fapi/v1/time] and returns [True] exactly when the exchange answers
    200 with a JSON body, [False] on every other response and on every
    exception of the transport. *)
Theorem test_connectivity_never_raises :
  forall (self : BinanceClient) (w : world),
    test_connectivity self w
    = (Return (match network w (List.length (sent w)) with
               | Response status (Some _) => Z.eqb status 200
               | _ => false
               end),
       World (clock w) (clock_reads w) (network w)
             (sent w ++ [request_of self "GET" "/fapi/v1/time" []])).
Proof.
  intros self w.
  unfold test_connectivity, try_except, bind, get_server_time.
  rewrite TraceFacts.make_request_run by reflexivity.
  cbn [or_empty].
  destruct (network w (List.length (sent w))) as [status [data|]|e]; cbn [classify].
  - destruct (Z.eqb status 200); [reflexivity|].
    destruct data; reflexivity.
  - reflexivity.
  - destruct e as [| | | | | |c m|]; try reflexivity.
    destruct (is_Timeout c); [reflexivity|].
    destruct (is_ConnectionError c); reflexivity.
Qed.

Module SanitizeFacts.

Lemma keys_set_present (d : dict) (k : string) (v x : pyval) :
  Py.lookup d k = Some x -> map fst (Py.set d k v) = map fst d.
Proof.
  induction d as [|[k' v'] r IH]; simpl; [discriminate|].
  destruct (String.eqb k' k); simpl; [reflexivity|].
  intros H. now rewrite IH.
Qed.

Lemma set_set (d : dict) (k : string) (v : pyval) :
  Py.set (Py.set d k v) k v = Py.set d k v.
Proof.
  induction d as [|[k' v'] r IH]; simpl.
  - now rewrite String.eqb_refl.
  - destruct (String.eqb k' k) eqn:E; simpl; rewrite E; [reflexivity|].
    now rewrite IH.
Qed.

End SanitizeFacts.

(** X18. [_sanitize_params] masks the signature and nothing else: the keys
    and their order stay, every other value stays, the value under
    [signature] becomes ['***'] when the key is there and the map is
    unchanged when it is not; sanitizing twice is sanitizing once, and the
    parameters of a signed request never keep their signature. *)
Theorem sanitize_masks_only_signature :
  forall (self : BinanceClient) (params : dict) (t : Z) (k : string),
    map fst (_sanitize_params params) = map fst params
    /\ Py.lookup (_sanitize_params params) k
       = (if String.eqb k "signature"
          then match Py.lookup params "signature" with
               | Some _ => Some (VStr "***")
               | None => None
               end
          else Py.lookup params k)
    /\ _sanitize_params (_sanitize_params params) = _sanitize_params params
    /\ Py.lookup (_sanitize_params (signed_params self params t)) "signature"
       = Some (VStr "***").
Proof.
  intros self params t k.
  assert (Hl : forall p, Py.lookup (_sanitize_params p) "signature"
                         = match Py.lookup p "signature" with
                           | Some _ => Some (VStr "***")
                           | None => None
                           end).
  { intros p. unfold _sanitize_params.
    destruct (Py.lookup p "signature") eqn:E;
      [apply DictFacts.lookup_set_same | exact E]. }
  split; [|split; [|split]].
  - unfold _sanitize_params.
    destruct (Py.lookup params "signature") eqn:E; [|reflexivity].
    exact (SanitizeFacts.keys_set_present _ _ _ _ E).
  - destruct (String.eqb k "signature") eqn:Ek.
    + apply String.eqb_eq in Ek. subst k. apply Hl.
    + unfold _sanitize_params.
      destruct (Py.lookup params "signature"); [|reflexivity].
      apply DictFacts.lookup_set_other. intros ->. discriminate Ek.
  - unfold _sanitize_params at 1. rewrite Hl.
    unfold _sanitize_params.
    destruct (Py.lookup params "signature"); [|reflexivity].
    apply SanitizeFacts.set_set.
  - rewrite Hl. unfold signed_params. now rewrite DictFacts.lookup_set_same.
Qed.

(* ====================================================================== *)
(** ** Further properties of the order manager *)
(* ====================================================================== *)

(** X19. When validation passes and the exchange answers 200 with a JSON
    object, [place_order] returns the thirteen normalised fields read from
    the answer, [None] for each key the answer lacks, the answer itself
    under [raw_response], and [success: True] as the last key. *)
Theorem successful_order_result :
  forall (self : Orders.OrderManager) (symbol side order_type quantity price : pyval)
         (validated : dict) (w : world) (body : dict),
    Validators.validate_order_params symbol side order_type quantity price
    = Return validated ->
    network w (List.length (sent w)) = Response 200 (Some (VDict body)) ->
    fst (Orders.place_order self symbol side order_type quantity price w)
    = Return [("order_id", Py.get body "orderId"); ("symbol", Py.get body "symbol");
              ("side", Py.get body "side"); ("type", Py.get body "type");
              ("status", Py.get body "status"); ("quantity", Py.get body "origQty");
              ("executed_qty", Py.get body "executedQty");
              ("price", Py.get body "price"); ("avg_price", Py.get body "avgPrice");
              ("time_in_force", Py.get body "timeInForce");
              ("reduce_only", Py.get body "reduceOnly");
              ("timestamp", Py.get body "updateTime");
              ("raw_response", VDict body); ("success", VBool true)].
Proof.
  intros self symbol side order_type quantity price validated w body Hv Hn.
  rewrite (OrderFacts.place_order_run _ _ _ _ _ _ _ _ Hv).
  cbn [fst]. unfold order_result. rewrite Hn. reflexivity.
Qed.

Lemma successful_order_result_witness :
  (Validators.validate_order_params (VStr "BTCUSDT") (VStr "BUY") (VStr "MARKET")
                                    (VStr "0.001") VNone
   = Return [("symbol", VStr "BTCUSDT"); ("side", VStr "BUY");
             ("order_type", VStr "MARKET");
             ("quantity", VFloat (Dec.Finite false 1 (-3))); ("price", VNone)]
   /\ network (demo_world (Response 200 (Some (VDict [("orderId", VInt 9)]))))
              (List.length (sent (demo_world (Response 200 (Some (VDict [("orderId", VInt 9)]))))))
      = Response 200 (Some (VDict [("orderId", VInt 9)])))
  /\ fst (Orders.place_order demo_manager (VStr "BTCUSDT") (VStr "BUY") (VStr "MARKET")
                             (VStr "0.001") VNone
                             (demo_world (Response 200 (Some (VDict [("orderId", VInt 9)])))))
     = Return [("order_id", VInt 9); ("symbol", VNone); ("side", VNone); ("type", VNone);
               ("status", VNone); ("quantity", VNone); ("executed_qty", VNone);
               ("price", VNone); ("avg_price", VNone); ("time_in_force", VNone);
               ("reduce_only", VNone); ("timestamp", VNone);
               ("raw_response", VDict [("orderId", VInt 9)]); ("success", VBool true)].
Proof.
  assert (Hv : Validators.validate_order_params
                 (VStr "BTCUSDT") (VStr "BUY") (VStr "MARKET") (VStr "0.001") VNone
               = Return [("symbol", VStr "BTCUSDT"); ("side", VStr "BUY");
                         ("order_type", VStr "MARKET");
                         ("quantity", VFloat (Dec.Finite false 1 (-3)));
                         ("price", VNone)]) by (vm_compute; reflexivity).
  assert (Hn : network (demo_world (Response 200 (Some (VDict [("orderId", VInt 9)]))))
                       (List.length
                          (sent (demo_world
                                   (Response 200 (Some (VDict [("orderId", VInt 9)]))))))
               = Response 200 (Some (VDict [("orderId", VInt 9)]))) by reflexivity.
  split; [split; assumption|].
  exact (successful_order_result demo_manager _ _ _ _ _ _ _ _ Hv Hn).
Defined.

(** X20. When validation passes and the exchange answers 200 with a JSON
    document that is not an object, the order request has gone out all the
    same, and [place_order] reports an [UNKNOWN_ERROR] whose message is the
    [AttributeError] of the formatting. *)
Theorem non_object_answer_is_unknown_error :
  forall (self : Orders.OrderManager) (symbol side order_type quantity price : pyval)
         (validated : dict) (w : world) (data : pyval),
    Validators.validate_order_params symbol side order_type quantity price
    = Return validated ->
    (forall body, data <> VDict body) ->
    network w (List.length (sent w)) = Response 200 (Some data) ->
    fst (Orders.place_order self symbol side order_type quantity price w)
    = Return [("success", VBool false);
              ("error", VStr ("'" ++ type_name data
                                  ++ "' object has no attribute 'get'"));
              ("error_type", VStr "UNKNOWN_ERROR")]
    /\ new_requests (Orders.place_order self symbol side order_type quantity price) w
       = [order_request self validated w].
Proof.
  intros self symbol side order_type quantity price validated w data Hv Hd Hn.
  unfold new_requests.
  rewrite (OrderFacts.place_order_run _ _ _ _ _ _ _ _ Hv).
  cbn [fst snd sent]. rewrite TraceFacts.skipn_app_exact.
  split; [|reflexivity].
  unfold order_result. rewrite Hn. cbn [classify Z.eqb Pos.eqb].
  destruct data; try reflexivity.
  exfalso. exact (Hd _ eq_refl).
Qed.

Lemma non_object_answer_is_unknown_error_witness :
  (Validators.validate_order_params (VStr "BTCUSDT") (VStr "BUY") (VStr "MARKET")
                                    (VStr "0.001") VNone
   = Return [("symbol", VStr "BTCUSDT"); ("side", VStr "BUY");
             ("order_type", VStr "MARKET");
             ("quantity", VFloat (Dec.Finite false 1 (-3))); ("price", VNone)]
   /\ (forall body, VList [] <> VDict body)
   /\ network (demo_world (Response 200 (Some (VList []))))
              (List.length (sent (demo_world (Response 200 (Some (VList []))))))
      = Response 200 (Some (VList [])))
  /\ fst (Orders.place_order demo_manager (VStr "BTCUSDT") (VStr "BUY") (VStr "MARKET")
                             (VStr "0.001") VNone
                             (demo_world (Response 200 (Some (VList [])))))
     = Return [("success", VBool false);
               ("error", VStr "'list' object has no attribute 'get'");
               ("error_type", VStr "UNKNOWN_ERROR")].
Proof.
  assert (Hv : Validators.validate_order_params
                 (VStr "BTCUSDT") (VStr "BUY") (VStr "MARKET") (VStr "0.001") VNone
               = Return [("symbol", VStr "BTCUSDT"); ("side", VStr "BUY");
                         ("order_type", VStr "MARKET");
                         ("quantity", VFloat (Dec.Finite false 1 (-3)));
                         ("price", VNone)]) by (vm_compute; reflexivity).
  assert (Hd : forall body, VList [] <> VDict body) by discriminate.
  assert (Hn : network (demo_world (Response 200 (Some (VList []))))
                       (List.length (sent (demo_world (Response 200 (Some (VList []))))))
               = Response 200 (Some (VList []))) by reflexivity.
  split; [repeat split; assumption|].
  exact (proj1 (non_object_answer_is_unknown_error
                  demo_manager _ _ _ _ _ _ _ _ Hv Hd Hn)).
Defined.

(** X21. The summary of an order that [place_order] did not place is the
    single line [Order Failed: ] followed by the error of the record; after
    a [ValidationError] that error is the message of the validator. *)
Theorem failed_order_summary :
  forall (self : Orders.OrderManager) (symbol side order_type quantity price : pyval)
         (w : world) (r : dict),
    fst (Orders.place_order self symbol side order_type quantity price w) = Return r ->
    Py.lookup r "success" <> Some (VBool true) ->
    Orders.get_order_summary r = "Order Failed: " ++ Py.str (Py.get r "error")
    /\ (forall m,
           Validators.validate_order_params symbol side order_type quantity price
           = Raise (ValidationError m) ->
           Orders.get_order_summary r = "Order Failed: " ++ m).
Proof.
  intros self symbol side order_type quantity price w r Hr Hs.
  assert (Hf : failure_record r).
  { destruct (Validators.validate_order_params symbol side order_type quantity price)
      as [validated | e] eqn:Hv.
    - rewrite (OrderFacts.place_order_run _ _ _ _ _ _ _ _ Hv) in Hr.
      cbn [fst] in Hr. injection Hr as <-.
      destruct (order_result_is_record (network w (List.length (sent w))))
        as [H | H]; [contradiction | exact H].
    - unfold Orders.place_order in Hr. rewrite Hv in Hr.
      destruct e; try discriminate Hr.
      cbn in Hr. injection Hr as <-. apply failure_records. }
  assert (Hsum : Orders.get_order_summary r
                 = "Order Failed: " ++ Py.str (Py.get r "error")).
  { destruct Hf as (H1 & _ & _).
    unfold Orders.get_order_summary, Py.get at 1, Py.get_or. now rewrite H1. }
  split; [exact Hsum|].
  intros m Hv. rewrite Hsum.
  unfold Orders.place_order in Hr. rewrite Hv in Hr.
  cbn in Hr. injection Hr as <-. reflexivity.
Qed.

Lemma failed_order_summary_witness :
  (fst (Orders.place_order demo_manager (VStr "BTCUSDT") (VStr "BUY") (VStr "MARKET")
                           (VInt (-1)) VNone (demo_world (Response 200 None)))
   = Return [("success", VBool false);
             ("error", VStr "Quantity must be greater than 0");
             ("error_type", VStr "VALIDATION_ERROR")]
   /\ Py.lookup [("success", VBool false);
                 ("error", VStr "Quantity must be greater than 0");
                 ("error_type", VStr "VALIDATION_ERROR")] "success"
      <> Some (VBool true)
   /\ Validators.validate_order_params (VStr "BTCUSDT") (VStr "BUY") (VStr "MARKET")
                                       (VInt (-1)) VNone
      = Raise (ValidationError "Quantity must be greater than 0"))
  /\ Orders.get_order_summary [("success", VBool false);
                               ("error", VStr "Quantity must be greater than 0");
                               ("error_type", VStr "VALIDATION_ERROR")]
     = "Order Failed: Quantity must be greater than 0".
Proof.
  assert (Hr : fst (Orders.place_order demo_manager (VStr "BTCUSDT") (VStr "BUY")
                                       (VStr "MARKET") (VInt (-1)) VNone
                                       (demo_world (Response 200 None)))
               = Return [("success", VBool false);
                         ("error", VStr "Quantity must be greater than 0");
                         ("error_type", VStr "VALIDATION_ERROR")])
    by (vm_compute; reflexivity).
  assert (Hs : Py.lookup [("success", VBool false);
                          ("error", VStr "Quantity must be greater than 0");
                          ("error_type", VStr "VALIDATION_ERROR")] "success"
               <> Some (VBool true)) by discriminate.
  assert (Hv : Validators.validate_order_params
                 (VStr "BTCUSDT") (VStr "BUY") (VStr "MARKET") (VInt (-1)) VNone
               = Raise (ValidationError "Quantity must be greater than 0"))
    by (vm_compute; reflexivity).
  split; [repeat split; assumption|].
  exact (proj2 (failed_order_summary demo_manager _ _ _ _ _ _ _ Hr Hs) _ Hv).
Defined.

(** X22. In the report of a successful order the Price line is there
    exactly when the price is truthy and is not the string ["0"]: it is then
    the eleventh line; for [None], the empty text, the number zero and the
    string ["0"] no line of the report is a Price line. *)
Theorem summary_price_line :
  forall (order_result : dict),
    Py.truthy (Py.get order_result "success") = true ->
    let price := Py.get order_result "price" in
    let shown := (Py.truthy price && negb (Py.eq_str price "0"))%bool in
    (shown = true ->
     nth_error (Orders.summary_lines order_result) 10
     = Some ("Price:        " ++ Py.str price))
    /\ (shown = false ->
        forall line, In line (Orders.summary_lines order_result) ->
                     Text.startswith line "Price:" = false).
Proof.
  intros order_result Hs price shown.
  unfold Orders.summary_lines, Orders.field. fold price. fold shown.
  split; intros Hshown; rewrite Hshown.
  - destruct (Py.truthy (Py.get order_result "avg_price")
              && negb (Py.eq_str (Py.get order_result "avg_price") "0"))%bool;
      reflexivity.
  - intros line.
    destruct (Py.truthy (Py.get order_result "avg_price")
              && negb (Py.eq_str (Py.get order_result "avg_price") "0"))%bool;
      cbn [app In]; intros H;
      repeat (destruct H as [<- | H]; [reflexivity|]); destruct H.
Qed.

Lemma summary_price_line_witness :
  (Py.truthy (Py.get [("price", VStr "61000.5"); ("success", VBool true)] "success")
   = true
   /\ (Py.truthy (Py.get [("price", VStr "61000.5"); ("success", VBool true)] "price")
       && negb (Py.eq_str (Py.get [("price", VStr "61000.5"); ("success", VBool true)]
                                  "price") "0"))%bool = true
   /\ Py.truthy (Py.get [("price", VInt 0); ("success", VBool true)] "success") = true
   /\ (Py.truthy (Py.get [("price", VInt 0); ("success", VBool true)] "price")
       && negb (Py.eq_str (Py.get [("price", VInt 0); ("success", VBool true)]
                                  "price") "0"))%bool = false
   /\ In "Symbol:       None"
         (Orders.summary_lines [("price", VInt 0); ("success", VBool true)]))
  /\ nth_error (Orders.summary_lines [("price", VStr "61000.5"); ("success", VBool true)])
               10
     = Some "Price:        61000.5"
  /\ Text.startswith "Symbol:       None" "Price:" = false.
Proof.
  assert (H1 : Py.truthy (Py.get [("price", VStr "61000.5"); ("success", VBool true)]
                                 "success") = true) by reflexivity.
  assert (H2 : (Py.truthy (Py.get [("price", VStr "61000.5"); ("success", VBool true)]
                                  "price")
                && negb (Py.eq_str (Py.get [("price", VStr "61000.5");
                                            ("success", VBool true)] "price") "0"))%bool
               = true) by reflexivity.
  assert (H3 : Py.truthy (Py.get [("price", VInt 0); ("success", VBool true)] "success")
               = true) by reflexivity.
  assert (H4 : (Py.truthy (Py.get [("price", VInt 0); ("success", VBool true)] "price")
                && negb (Py.eq_str (Py.get [("price", VInt 0); ("success", VBool true)]
                                           "price") "0"))%bool = false) by reflexivity.
  assert (H5 : In "Symbol:       None"
                  (Orders.summary_lines [("price", VInt 0); ("success", VBool true)])).
  { vm_compute. right; right; right; right. left. reflexivity. }
  split; [repeat split; assumption|].
  split.
  - exact (proj1 (summary_price_line _ H1) H2).
  - exact (proj2 (summary_price_line _ H3) H4 _ H5).
Defined.

Module ManagerFacts.

Lemma symbol_normalised symbol v :
  Validators.validate_symbol symbol = Return v ->
  exists s, v = VStr s /\ normalised s /\ Text.endswith s "USDT" = true.
Proof.
  unfold Validators.validate_symbol.
  destruct (negb (Py.truthy symbol)); [discriminate|].
  destruct symbol; cbn [Validators.upper_strip rbind]; try discriminate.
  destruct (Text.endswith (Text.strip (Text.upper s)) "USDT") eqn:E;
    cbn [negb]; [|discriminate].
  intros [= <-]. eexists. split; [reflexivity|].
  split; [apply TextFacts.strip_upper_normalised | exact E].
Qed.

Lemma validated_symbol symbol side order_type quantity price validated :
  Validators.validate_order_params symbol side order_type quantity price
  = Return validated ->
  Validators.validate_symbol symbol = Return (Py.get validated "symbol").
Proof.
  unfold Validators.validate_order_params, rbind.
  destruct (Validators.validate_symbol symbol) as [vs|]; [|discriminate].
  destruct (Validators.validate_side side) as [vd|]; [|discriminate].
  destruct (Validators.validate_order_type order_type) as [vt|]; [|discriminate].
  destruct (Validators.validate_quantity quantity) as [vq|]; [|discriminate].
  cbn [getitem Py.lookup String.eqb Ascii.eqb Bool.eqb].
  destruct (Validators.validate_price price vt) as [vp|]; [|discriminate].
  intros [= <-]. reflexivity.
Qed.

End ManagerFacts.

(** X23. An order that the manager sends is a validated one: the symbol of
    every request has no lowercase letter and no surrounding whitespace and
    ends with [USDT]; the side is [BUY] or [SELL]; the quantity is
    [float(q)] for the decimal [q] that [Decimal(str(quantity))] reads from
    the caller's quantity, and [q] is above zero; the price is not there, or
    it is [float(p)] for the decimal [p] read from the caller's price, with
    [p] above zero.  The test is on the decimals: what [float] makes of them
    is not stated. *)
Theorem manager_sends_only_validated_orders :
  forall (self : Orders.OrderManager) (symbol side order_type quantity price : pyval)
         (w : world) (req : http_request),
    In req (new_requests
              (Orders.place_order self symbol side order_type quantity price) w) ->
    (exists s, Py.lookup (req_params req) "symbol" = Some (VStr s)
               /\ normalised s /\ Text.endswith s "USDT" = true)
    /\ (Py.lookup (req_params req) "side" = Some (VStr "BUY")
        \/ Py.lookup (req_params req) "side" = Some (VStr "SELL"))
    /\ (exists q, Dec.of_string (Py.str quantity) = Some q /\ positive q
                  /\ Py.lookup (req_params req) "quantity" = Some (VFloat q))
    /\ (Py.lookup (req_params req) "price" = None
        \/ exists p, Dec.of_string (Py.str price) = Some p /\ positive p
                     /\ Py.lookup (req_params req) "price" = Some (VFloat p)).
Proof.
  intros self symbol side order_type quantity price w req Hin.
  unfold new_requests in Hin.
  destruct (Validators.validate_order_params symbol side order_type quantity price)
    as [validated | e] eqn:Hv.
  - rewrite (OrderFacts.place_order_run self _ _ _ _ _ _ w Hv) in Hin.
    cbn [snd sent] in Hin. rewrite TraceFacts.skipn_app_exact in Hin.
    destruct Hin as [<- | []].
    destruct (ParsedFacts.validated_fields _ _ _ _ _ _ Hv)
      as (_ & Hsym & _ & _ & Hqty & Hprice).
    apply ManagerFacts.symbol_normalised in Hsym as (s & Hs & Hnorm & Hend).
    apply ParsedFacts.quantity_parsed in Hqty as (q & Hq1 & Hq2 & Hq3).
    apply ParsedFacts.price_parsed in Hprice.
    pose proof (ValidatorFacts.validate_order_params_returns _ _ _ _ _ _ Hv) as Hc.
    destruct Hc as [sym sd qty _ Hd _ | sym sd qty pr _ Hd _ _];
      cbn in Hs, Hq3, Hprice; injection Hs as ->; injection Hq3 as ->.
    + split; [exists s; split; [reflexivity | split; assumption]|].
      split; [destruct Hd as [-> | ->]; [left | right]; reflexivity|].
      split; [exists q; split; [exact Hq1 | split; [exact Hq2 | reflexivity]]|].
      left. reflexivity.
    + split; [exists s; split; [reflexivity | split; assumption]|].
      split; [destruct Hd as [-> | ->]; [left | right]; reflexivity|].
      split; [exists q; split; [exact Hq1 | split; [exact Hq2 | reflexivity]]|].
      destruct Hprice as [(Hl & _) | (_ & p & Hp1 & Hp2 & Hp3)]; [discriminate Hl|].
      injection Hp3 as ->.
      right. exists p. split; [exact Hp1 | split; [exact Hp2 | reflexivity]].
  - exfalso. unfold Orders.place_order in Hin. rewrite Hv in Hin.
    destruct e; cbn in Hin; rewrite skipn_all in Hin; exact Hin.
Qed.

Lemma manager_sends_only_validated_orders_witness :
  In (order_request demo_manager
        [("symbol", VStr "ADAUSDT"); ("side", VStr "BUY");
         ("order_type", VStr "MARKET"); ("quantity", VFloat (Dec.Finite false 25 0));
         ("price", VNone)]
        (demo_world (Response 200 None)))
     (new_requests
        (Orders.place_order demo_manager (VStr "adausdt ") (VStr "buy") (VStr "market")
                            (VInt 25) (VStr "ignored"))
        (demo_world (Response 200 None)))
  /\ (Py.lookup
        (req_params
           (order_request demo_manager
              [("symbol", VStr "ADAUSDT"); ("side", VStr "BUY");
               ("order_type", VStr "MARKET");
               ("quantity", VFloat (Dec.Finite false 25 0)); ("price", VNone)]
              (demo_world (Response 200 None))))
        "side" = Some (VStr "BUY")
      \/ Py.lookup
           (req_params
              (order_request demo_manager
                 [("symbol", VStr "ADAUSDT"); ("side", VStr "BUY");
                  ("order_type", VStr "MARKET");
                  ("quantity", VFloat (Dec.Finite false 25 0)); ("price", VNone)]
                 (demo_world (Response 200 None))))
           "side" = Some (VStr "SELL")).
Proof.
  assert (H : In (order_request demo_manager
                    [("symbol", VStr "ADAUSDT"); ("side", VStr "BUY");
                     ("order_type", VStr "MARKET");
                     ("quantity", VFloat (Dec.Finite false 25 0)); ("price", VNone)]
                    (demo_world (Response 200 None)))
                 (new_requests
                    (Orders.place_order demo_manager (VStr "adausdt ") (VStr "buy")
                                        (VStr "market") (VInt 25) (VStr "ignored"))
                    (demo_world (Response 200 None)))).
  { vm_compute. left. reflexivity. }
  split; [exact H|].
  exact (proj1 (proj2 (manager_sends_only_validated_orders
                         demo_manager _ _ _ _ _ _ _ H))).
Defined.

(** X24. [place_order] of the manager sends exactly one request when the
    validation returns a record, the signed POST of that record, and none
    when the validation raises, whatever the exception. *)
Theorem manager_sends_once_after_validation :
  forall (self : Orders.OrderManager) (symbol side order_type quantity price : pyval)
         (w : world),
    new_requests (Orders.place_order self symbol side order_type quantity price) w
    = match Validators.validate_order_params symbol side order_type quantity price with
      | Return validated => [order_request self validated w]
      | Raise _ => []
      end.
Proof.
  intros self symbol side order_type quantity price w. unfold new_requests.
  destruct (Validators.validate_order_params symbol side order_type quantity price)
    as [validated | e] eqn:Hv.
  - rewrite (OrderFacts.place_order_run self _ _ _ _ _ _ w Hv).
    cbn [snd sent]. apply TraceFacts.skipn_app_exact.
  - unfold Orders.place_order. rewrite Hv.
    destruct e; cbn; apply skipn_all.
Qed.

(* ====================================================================== *)
(** ** Integers as quantities *)
(* ====================================================================== *)

Module IntFacts.
Import Text Dec.

(** What a decimal digit is not. *)
Lemma digit_plain c :
  is_digit c = true ->
  is_space c = false /\ not_underscore c = true /\ lower_char c = c
  /\ Ascii.eqb c "-"%char = false /\ Ascii.eqb c "+"%char = false
  /\ Ascii.eqb c "."%char = false.
Proof.
  destruct c as [[] [] [] [] [] [] [] []]; intros H; try discriminate H;
    repeat split.
Qed.

Lemma strip_no_space l :
  Forall (fun c => is_space c = false) l -> strip_chars l = l.
Proof.
  intros H. unfold strip_chars.
  assert (Hc : forall l', Forall (fun c => is_space c = false) l' -> clean l').
  { intros [|c r] Hl; [exact I | now inversion Hl]. }
  rewrite (TextFacts.drop_id l (Hc _ H)).
  rewrite (TextFacts.drop_id (rev l) (Hc _ (Forall_rev H))).
  apply rev_involutive.
Qed.

Lemma filter_all {A : Type} (f : A -> bool) l :
  Forall (fun c => f c = true) l -> filter f l = l.
Proof.
  induction 1 as [|c r Hc _ IH]; simpl; [reflexivity|]. now rewrite Hc, IH.
Qed.

Lemma map_fixed {A : Type} (f : A -> A) l :
  Forall (fun c => f c = c) l -> map f l = l.
Proof.
  induction 1 as [|c r Hc _ IH]; simpl; [reflexivity|]. now rewrite Hc, IH.
Qed.

Lemma span_all_digits l :
  Forall (fun c => is_digit c = true) l -> span_digits l = (l, []).
Proof.
  induction 1 as [|c r Hc _ IH]; simpl; [reflexivity|]. now rewrite Hc, IH.
Qed.

(** The constructor on a run of digits, with or without a minus sign. *)
Lemma of_string_digits (neg : bool) (l : list ascii) :
  l <> [] ->
  Forall (fun c => is_digit c = true) l ->
  of_string (text (if neg then "-"%char :: l else l))
  = Some (Finite neg (digits_val l) 0).
Proof.
  intros Hne Hd.
  assert (Hplain : Forall (fun c => is_space c = false /\ not_underscore c = true
                                    /\ lower_char c = c)
                          (if neg then "-"%char :: l else l)).
  { assert (Hl : Forall (fun c => is_space c = false /\ not_underscore c = true
                                  /\ lower_char c = c) l).
    { eapply Forall_impl; [|exact Hd]. intros c Hc.
      destruct (digit_plain c Hc) as (? & ? & ? & _). auto. }
    destruct neg; [constructor; [repeat split|]|]; exact Hl. }
  unfold of_string. rewrite TextFacts.chars_of_text.
  rewrite strip_no_space
    by (eapply Forall_impl; [|exact Hplain]; intros c (? & _); assumption).
  rewrite filter_all
    by (eapply Forall_impl; [|exact Hplain]; intros c (_ & ? & _); assumption).
  rewrite map_fixed
    by (eapply Forall_impl; [|exact Hplain]; intros c (_ & _ & ?); assumption).
  destruct l as [|c r]; [contradiction|].
  pose proof (Forall_inv Hd) as Hc.
  destruct (digit_plain c Hc) as (_ & _ & _ & Hm & Hp & _).
  assert (Hs : split_sign (if neg then "-"%char :: c :: r else c :: r)
               = (neg, c :: r)).
  { destruct neg; [reflexivity|]. unfold split_sign. now rewrite Hm, Hp. }
  rewrite Hs. rewrite Hc. cbn [orb].
  unfold parse_number. rewrite (span_all_digits _ Hd).
  rewrite app_nil_r. cbn [parse_exponent List.length Z.of_nat Z.sub Z.opp Z.add].
  reflexivity.
Qed.

(** The digits of a decimal numeral. *)
Lemma numeral_digits (d : Decimal.uint) :
  Forall (fun c => is_digit c = true) (chars (NilEmpty.string_of_uint d)).
Proof.
  induction d; simpl; constructor; try reflexivity; assumption.
Qed.

Lemma numeral_fold (d d' : Decimal.uint) :
  fold_left (fun acc c => (10 * acc + digit_val c)%N)
            (chars (NilEmpty.string_of_uint d))
            (DecimalPos.Unsigned.of_lu d')
  = DecimalPos.Unsigned.of_lu (Decimal.revapp d d').
Proof.
  revert d'.
  induction d; intros d'; cbn [NilEmpty.string_of_uint chars list_ascii_of_string
                                 fold_left Decimal.revapp];
    [reflexivity|..];
    match goal with
    | |- fold_left _ _ ?acc = DecimalPos.Unsigned.of_lu (Decimal.revapp _ ?d2) =>
        replace acc with (DecimalPos.Unsigned.of_lu d2);
        [apply IHd
        | cbn [DecimalPos.Unsigned.of_lu]; unfold digit_val, code;
          cbn [N_of_ascii N_of_digits]; lia]
    end.
Qed.

Lemma numeral_value (d : Decimal.uint) :
  digits_val (chars (NilEmpty.string_of_uint d)) = N.of_uint d.
Proof.
  unfold digits_val.
  change 0%N with (DecimalPos.Unsigned.of_lu Decimal.Nil).
  rewrite numeral_fold. unfold N.of_uint.
  now rewrite DecimalPos.Unsigned.of_uint_alt.
Qed.

Lemma numeral_nonempty (d : Decimal.uint) :
  d <> Decimal.Nil -> chars (NilEmpty.string_of_uint d) <> [].
Proof. destruct d; [contradiction|..]; discriminate. Qed.

(** [Decimal(str(n))] for an [int]: the integer itself, with exponent
    zero. *)
Lemma decimal_of_int (n : Z) :
  of_string (Text.of_Z n) = Some (Finite (Z.ltb n 0) (Z.abs_N n) 0).
Proof.
  unfold Text.of_Z.
  destruct n as [|p|p]; [reflexivity|..]; cbn [Z.to_int NilZero.string_of_int Z.ltb
                                                Z.compare Z.abs_N].
  - pose proof (DecimalPos.Unsigned.to_uint_nonnil p) as Hn.
    assert (Hs : NilZero.string_of_uint (Pos.to_uint p)
                 = text (chars (NilEmpty.string_of_uint (Pos.to_uint p)))).
    { rewrite TextFacts.text_chars. destruct (Pos.to_uint p); [contradiction|..];
        reflexivity. }
    rewrite Hs.
    rewrite (of_string_digits false _ (numeral_nonempty _ Hn) (numeral_digits _)).
    rewrite numeral_value. unfold N.of_uint.
    now rewrite DecimalPos.Unsigned.of_to.
  - pose proof (DecimalPos.Unsigned.to_uint_nonnil p) as Hn.
    assert (Hs : String "-" (NilZero.string_of_uint (Pos.to_uint p))
                 = text ("-"%char :: chars (NilEmpty.string_of_uint (Pos.to_uint p)))).
    { cbn [text string_of_list_ascii]. f_equal.
      change (string_of_list_ascii ?l) with (text l).
      rewrite TextFacts.text_chars. destruct (Pos.to_uint p); [contradiction|..];
        reflexivity. }
    rewrite Hs.
    rewrite (of_string_digits true _ (numeral_nonempty _ Hn) (numeral_digits _)).
    rewrite numeral_value. unfold N.of_uint.
    now rewrite DecimalPos.Unsigned.of_to.
Qed.

End IntFacts.

(** X25. On an [int] that [str] can write (CPython 3.11 refuses integers of
    more than 4300 digits), [Decimal(str(n))] reads back as the integer
    itself, so [validate_quantity] is the test [n > 0]: zero and the
    negative integers are refused with [Quantity must be greater than 0],
    and a positive integer is accepted and returned through [float].  What
    [float] makes of the decimal is not stated. *)
Theorem validate_quantity_of_int :
  forall (n : Z),
    Z.abs n < 10 ^ 4300 ->
    Dec.of_string (Py.str (VInt n)) = Some (Dec.Finite (Z.ltb n 0) (Z.abs_N n) 0)
    /\ (n <= 0 ->
        Validators.validate_quantity (VInt n)
        = Raise (ValidationError "Quantity must be greater than 0"))
    /\ (0 < n -> exists v, Validators.validate_quantity (VInt n) = Return v).
Proof.
  intros n _.
  assert (H : Dec.of_string (Py.str (VInt n))
              = Some (Dec.Finite (Z.ltb n 0) (Z.abs_N n) 0)).
  { cbn [Py.str Py.repr]. apply IntFacts.decimal_of_int. }
  split; [exact H|].
  unfold Validators.validate_quantity. cbn [Py.is_none]. rewrite H.
  cbn [Dec.le_zero].
  split; intros Hn.
  - destruct n as [|p|p]; [reflexivity | lia | reflexivity].
  - destruct n as [|p|p]; [lia | eexists; reflexivity | lia].
Qed.

Lemma validate_quantity_of_int_witness :
  (Z.abs 25 < 10 ^ 4300 /\ 0 < 25 /\ Z.abs (-3) < 10 ^ 4300 /\ -3 <= 0)
  /\ Dec.of_string (Py.str (VInt 25)) = Some (Dec.Finite false 25 0)
  /\ (exists v, Validators.validate_quantity (VInt 25) = Return v)
  /\ Validators.validate_quantity (VInt (-3))
     = Raise (ValidationError "Quantity must be greater than 0").
Proof.
  assert (B1 : Z.abs 25 < 10 ^ 4300) by (vm_compute; reflexivity).
  assert (P1 : 0 < 25) by lia.
  assert (B2 : Z.abs (-3) < 10 ^ 4300) by (vm_compute; reflexivity).
  assert (P2 : -3 <= 0) by lia.
  split; [repeat split; assumption|].
  split; [exact (proj1 (validate_quantity_of_int 25 B1))|].
  split.
  - exact (proj2 (proj2 (validate_quantity_of_int 25 B1)) P1).
  - exact (proj1 (proj2 (validate_quantity_of_int (-3) B2)) P2).
Defined.

(* ====================================================================== *)
(** ** The validators of the menu against those of the core *)
(* ====================================================================== *)

Module MenuFacts.

Lemma symbol_fixed s :
  Text.endswith (Text.strip (Text.upper s)) "USDT" = true ->
  Validators.validate_symbol (VStr (Text.strip (Text.upper s)))
  = Return (VStr (Text.strip (Text.upper s))).
Proof.
  intros E. unfold Validators.validate_symbol.
  rewrite (TextFacts.nonempty_truthy _
             (TextFacts.endswith_nonempty _ "USDT" ltac:(discriminate) E)).
  cbn [negb Validators.upper_strip rbind].
  rewrite TextFacts.strip_upper_idem, E. reflexivity.
Qed.

End MenuFacts.

(** X26. The menu and the core accept the same symbols and normalise them
    alike: on every text both return the upper-cased, stripped text, or
    both refuse it; and what the menu returns is a symbol the core gives
    back unchanged. *)
Theorem menu_symbol_agrees_with_core :
  forall (s : string),
    match Interactive.validate_symbol s, Validators.validate_symbol (VStr s) with
    | Return a, Return b =>
        b = VStr a /\ Validators.validate_symbol (VStr a) = Return (VStr a)
    | Raise (ValueError _), Raise (ValidationError _) => True
    | _, _ => False
    end.
Proof.
  intros s. destruct s as [|c r]; [exact I|].
  pose proof (MenuFacts.symbol_fixed (String c r)) as Hfix.
  assert (H1 : Interactive.validate_symbol (String c r)
               = if Text.endswith (Text.strip (Text.upper (String c r))) "USDT"
                 then Return (Text.strip (Text.upper (String c r)))
                 else Raise (ValueError "Symbol must end with USDT (e.g., BTCUSDT)")).
  { unfold Interactive.validate_symbol.
    destruct (Text.endswith (Text.strip (Text.upper (String c r))) "USDT");
      reflexivity. }
  assert (H2 : Validators.validate_symbol (VStr (String c r))
               = if Text.endswith (Text.strip (Text.upper (String c r))) "USDT"
                 then Return (VStr (Text.strip (Text.upper (String c r))))
                 else Raise (ValidationError
                               ("Invalid symbol format: "
                                  ++ Text.strip (Text.upper (String c r))
                                  ++ ". Must end with USDT"))).
  { unfold Validators.validate_symbol.
    cbn [Py.truthy String.eqb negb Validators.upper_strip rbind].
    destruct (Text.endswith (Text.strip (Text.upper (String c r))) "USDT");
      reflexivity. }
  rewrite H1, H2.
  destruct (Text.endswith (Text.strip (Text.upper (String c r))) "USDT");
    [|exact I].
  split; [reflexivity | now apply Hfix].
Qed.

(** X27. The menu accepts every side the core accepts and the shortcuts [B]
    and [S] besides; what it returns is [BUY] or [SELL], which the core
    gives back unchanged, so a side that passed the menu never fails the
    validation of the manager. *)
Theorem menu_side_agrees_with_core :
  forall (s : string),
    match Interactive.validate_side s with
    | Return a =>
        (a = "BUY" \/ a = "SELL")
        /\ Validators.validate_side (VStr a) = Return (VStr a)
    | Raise e =>
        e = ValueError "Must be BUY/B or SELL/S"
        /\ exists m, Validators.validate_side (VStr s) = Raise (ValidationError m)
    end.
Proof.
  intros s. unfold Interactive.validate_side.
  destruct (Validators.mem (Text.strip (Text.upper s)) ["BUY"; "SELL"; "B"; "S"])
    eqn:E4; cbn [negb].
  - destruct (Validators.mem (Text.strip (Text.upper s)) ["BUY"; "B"]);
      (split; [auto | reflexivity]).
  - split; [reflexivity|].
    unfold Validators.validate_side.
    destruct (negb (Py.truthy (VStr s))); [eauto|].
    cbn [Validators.upper_strip rbind].
    assert (E2 : Validators.mem (Text.strip (Text.upper s)) Validators.VALID_SIDES
                 = false).
    { unfold Validators.mem, Validators.VALID_SIDES in *. cbn [existsb] in *.
      destruct (String.eqb (Text.strip (Text.upper s)) "BUY"); [discriminate E4|].
      destruct (String.eqb (Text.strip (Text.upper s)) "SELL"); [discriminate E4|].
      reflexivity. }
    rewrite E2. cbn [negb]. eauto.
Qed.

(* ====================================================================== *)
(** ** Cancellation and the query of open orders through the manager *)
(* ====================================================================== *)

(** X28. [cancel_order] and [get_open_orders] of the manager each send one
    signed request and read their result off its outcome: a 200 answer
    comes back verbatim under [response] or [orders] with [success: True],
    an [ApiError] (a non-200 JSON object, a body that is not JSON, a failure
    of the transport) comes back as [{success: False, error: <message>}],
    and the [AttributeError] of a non-200 answer that is no JSON object is
    raised to the caller. *)
Theorem manager_pass_through_outcomes :
  forall (self : Orders.OrderManager) (symbol order_id : pyval) (w : world),
    let outcome (key : string) : result dict :=
      match classify (network w (List.length (sent w))) with
      | Return answer => Return [("success", VBool true); (key, answer)]
      | Raise (BinanceAPIError _ _ message) =>
          Return [("success", VBool false); ("error", message)]
      | Raise e => Raise e
      end in
    fst (Orders.cancel_order self symbol order_id w) = outcome "response"
    /\ fst (Orders.get_open_orders self symbol w) = outcome "orders"
    /\ List.length (new_requests (Orders.cancel_order self symbol order_id) w) = 1%nat
    /\ List.length (new_requests (Orders.get_open_orders self symbol) w) = 1%nat.
Proof.
  intros self symbol order_id w outcome. subst outcome.
  unfold new_requests, Orders.cancel_order, Orders.get_open_orders, try_except, bind,
    Client.cancel_order, Client.get_open_orders.
  rewrite !TraceFacts.make_request_run by reflexivity.
  destruct (classify (network w (List.length (sent w)))) as [answer | e].
  - cbn [fst snd sent ret]. rewrite !TraceFacts.skipn_app_exact. repeat split.
  - destruct e; cbn [fst snd sent ret]; rewrite !TraceFacts.skipn_app_exact;
      repeat split.
Qed.
